(** * Authentication and assignment workflow: a shallow embedding

    The service functions of [app/auth.py], [app/dependencies.py],
    [app/services/user_service.py] and [app/services/admin_service.py]
    are embedded as functions over an explicit document store.  Documents
    are Python dictionaries (finite maps from field names to values), a
    collection is the list of its documents in insertion order, and a
    raised exception is a value of the result type.  The password hashing
    context, the JWT codec and the process settings are external
    collaborators: they are fields of the class [Libs]. *)

From Stdlib Require Import ZArith Ascii String.
From stdpp Require Import base option list gmap strings countable pretty.

Local Open Scope string_scope.

(** ** bson: object identifiers *)

Module bson.

(** An [ObjectId] is twelve bytes; it is kept here in the form [str]
    prints it, twenty-four lower-case hexadecimal digits. *)
Record ObjectId : Type := mkObjectId { hex : string }.

#[global] Instance ObjectId_eq_dec : EqDecision ObjectId.
Proof. solve_decision. Defined.

Definition is_hex_digit (a : ascii) : bool :=
  let n := nat_of_ascii a in
  ((48 <=? n) && (n <=? 57) || (97 <=? n) && (n <=? 102)
   || (65 <=? n) && (n <=? 70))%nat.

Definition to_lower (a : ascii) : ascii :=
  let n := nat_of_ascii a in
  if ((65 <=? n) && (n <=? 90))%nat then ascii_of_nat (n + 32) else a.

Fixpoint all_hex (s : string) : bool :=
  match s with
  | EmptyString => true
  | String a s' => is_hex_digit a && all_hex s'
  end.

Fixpoint lower (s : string) : string :=
  match s with
  | EmptyString => EmptyString
  | String a s' => String (to_lower a) (lower s')
  end.

(** [ObjectId(s)] on a string of twenty-four hexadecimal digits; [None]
    stands for [errors.InvalidId].  ([ObjectId()] also takes a
    twenty-four character string with ASCII whitespace between pairs of
    digits, as fewer than twelve bytes; such strings are refused here,
    and the properties below use [parse] only where the two agree.) *)
Definition parse (s : string) : option ObjectId :=
  if (String.length s =? 24)%nat && all_hex s
  then Some (mkObjectId (lower s)) else None.

Definition str (o : ObjectId) : string := hex o.

End bson.

Abbreviation ObjectId := bson.ObjectId.

(** ** Values and documents *)

(** The values that occur in user and assignment documents and in token
    payloads.  A [VDate] is a [datetime], counted in seconds. *)
Inductive value : Type :=
  | VStr (s : string)
  | VBool (b : bool)
  | VInt (n : Z)
  | VDate (t : Z)
  | VOid (o : ObjectId)
  | VNone.

#[global] Instance value_eq_dec : EqDecision value.
Proof. solve_decision. Defined.

(** A Python [dict] with string keys. *)
Abbreviation dict := (gmap string value).

(** Truth value of a Python object, as [not x] and [if x] test it. *)
Definition truthy (v : value) : bool :=
  match v with
  | VStr s => negb (bool_decide (s = ""))
  | VBool b => b
  | VInt n => negb (bool_decide (n = 0%Z))
  | VDate _ => true
  | VOid _ => true
  | VNone => false
  end.

(** A dictionary is true when it is not empty; [None] is false. *)
Definition truthy_dict (d : dict) : bool := negb (bool_decide (d = ∅)).

Definition truthy_opt (o : option dict) : bool :=
  match o with
  | Some d => truthy_dict d
  | None => false
  end.

(** [d.get(k, dflt)] *)
Definition dict_get (d : dict) (k : string) (dflt : value) : value :=
  default dflt (d !! k).

(** ** Exceptions and results *)

Record HTTPException : Type := mkHTTPException {
  status_code : Z;
  detail : string;
  headers : list (string * string)
}.

#[global] Instance HTTPException_eq_dec : EqDecision HTTPException.
Proof. solve_decision. Defined.

(** Status codes, named as in [fastapi.status]. *)
Definition HTTP_400_BAD_REQUEST : Z := 400.
Definition HTTP_401_UNAUTHORIZED : Z := 401.
Definition HTTP_403_FORBIDDEN : Z := 403.
Definition HTTP_404_NOT_FOUND : Z := 404.
Definition HTTP_409_CONFLICT : Z := 409.
Definition HTTP_500_INTERNAL_SERVER_ERROR : Z := 500.

(** The exception classes of the [jwt] package that [jwt.decode] raises. *)
Inductive jwt_exn : Type :=
  | ExpiredSignatureError
  | InvalidSignatureError
  | DecodeError
  | InvalidAlgorithmError
  | ImmatureSignatureError
  | MissingRequiredClaimError
  | InvalidKeyError.

(** [isinstance(e, jwt.InvalidTokenError)]: every class above derives from
    [InvalidTokenError] except [InvalidKeyError], which derives from
    [PyJWTError] directly. *)
Definition is_InvalidTokenError (e : jwt_exn) : bool :=
  match e with
  | InvalidKeyError => false
  | _ => true
  end.

Inductive exn : Type :=
  | HTTPError (e : HTTPException)
  | KeyError (k : string)
  | InvalidId
  | JwtError (e : jwt_exn)
  | TypeError
  | ValidationError.

Inductive result (A : Type) : Type :=
  | Ok (a : A)
  | Raise (e : exn).
Arguments Ok {A} a.
Arguments Raise {A} e.

#[global] Instance result_ret : MRet result := λ A a, Ok a.
#[global] Instance result_bind : MBind result := λ A B f r,
  match r with
  | Ok a => f a
  | Raise e => Raise e
  end.

(** [try: body except: handler], where the handler re-raises what it does
    not catch. *)
Definition try_except {A} (body : result A) (handler : exn → result A)
  : result A :=
  match body with
  | Ok a => Ok a
  | Raise e => handler e
  end.

(** [d[k]] *)
Definition getitem (d : dict) (k : string) : result value :=
  match d !! k with
  | Some v => Ok v
  | None => Raise (KeyError k)
  end.

(** The status a result carries when it is an HTTP error. *)
Definition http_status {A} (r : result A) : option Z :=
  match r with
  | Raise (HTTPError e) => Some (status_code e)
  | _ => None
  end.

(** ** The document store *)

Module mongo.

Abbreviation collection := (list dict).

(** A filter document [{k1: v1, ...}]: every field equals the given
    value; a filter value [None] also matches a missing field. *)
Definition query : Type := list (string * value).

Definition field_matches (d : dict) (kv : string * value) : bool :=
  match d !! kv.1 with
  | Some v => bool_decide (v = kv.2)
  | None => bool_decide (kv.2 = VNone)
  end.

Definition matches (q : query) (d : dict) : bool :=
  forallb (field_matches d) q.

Fixpoint find_one (q : query) (c : collection) : option dict :=
  match c with
  | [] => None
  | d :: c' => if matches q d then Some d else find_one q c'
  end.

(** [find(q)], a cursor over the matching documents in store order. *)
Definition find (q : query) (c : collection) : collection :=
  List.filter (matches q) c.

(** [cursor.to_list(length=n)]; [length=None] reads the whole cursor. *)
Definition to_list (length : option nat) (cur : collection) : collection :=
  match length with
  | Some n => take n cur
  | None => cur
  end.

(** [insert_one(d)]: the driver adds the fresh [_id] to the document
    and appends it to the collection. *)
Definition insert_one (oid : ObjectId) (d : dict) (c : collection)
  : collection :=
  c ++ [<["_id" := VOid oid]> d].

Definition set_fields (upd : list (string * value)) (d : dict) : dict :=
  foldl (λ m kv, <[kv.1 := kv.2]> m) d upd.

(** [update_one(q, {"$set": upd})]: the first matching document is
    updated; the count of matched documents (0 or 1) comes back. *)
Fixpoint update_one (q : query) (upd : list (string * value))
    (c : collection) : nat * collection :=
  match c with
  | [] => (0%nat, [])
  | d :: c' =>
      if matches q d then (1%nat, set_fields upd d :: c')
      else let r := update_one q upd c' in (r.1, d :: r.2)
  end.

End mongo.

(** The two collections of [app.database]. *)
Record db : Type := mkDb {
  users_collection : list dict;
  assignments_collection : list dict
}.

(** A service call: it reads and writes the store and returns or raises.
    The store a raising call leaves behind is kept (nothing is rolled
    back).  The store itself never faults here, so the
    [except PyMongoError] clauses of the services, which turn a fault of
    the driver into status 500, have nothing to catch and are left out. *)
Definition App (A : Type) : Type := db → result A * db.

#[global] Instance App_ret : MRet App := λ A a s, (Ok a, s).
#[global] Instance App_bind : MBind App := λ A B f m s,
  match m s with
  | (Ok a, s') => f a s'
  | (Raise e, s') => (Raise e, s')
  end.

Definition raise {A} (e : exn) : App A := λ s, (Raise e, s).
Definition lift {A} (r : result A) : App A := λ s, (r, s).

Definition try_except_App {A} (body : App A) (handler : exn → App A)
  : App A := λ s,
  match body s with
  | (Ok a, s') => (Ok a, s')
  | (Raise e, s') => handler e s'
  end.

Definition users_find_one (q : mongo.query) : App (option dict) :=
  λ s, (Ok (mongo.find_one q (users_collection s)), s).

Definition users_find (q : mongo.query) (length : option nat)
  : App (list dict) :=
  λ s, (Ok (mongo.to_list length (mongo.find q (users_collection s))), s).

Definition users_insert_one (oid : ObjectId) (d : dict) : App ObjectId :=
  λ s, (Ok oid,
        mkDb (mongo.insert_one oid d (users_collection s))
             (assignments_collection s)).

Definition assignments_find (q : mongo.query) (length : option nat)
  : App (list dict) :=
  λ s, (Ok (mongo.to_list length (mongo.find q (assignments_collection s))),
        s).

Definition assignments_insert_one (oid : ObjectId) (d : dict)
  : App ObjectId :=
  λ s, (Ok oid,
        mkDb (users_collection s)
             (mongo.insert_one oid d (assignments_collection s))).

(** [update_one] returns its [matched_count]. *)
Definition assignments_update_one (q : mongo.query)
    (upd : list (string * value)) : App nat :=
  λ s, let r := mongo.update_one q upd (assignments_collection s) in
       (Ok r.1, mkDb (users_collection s) r.2).

(** ** Request schemas *)

(** [UserCreate] and [UserLogin] carry the same two fields. *)
Record UserCreate : Type := mkUserCreate {
  username : string;
  password : string
}.
Abbreviation UserLogin := UserCreate.

Record AssignmentCreate : Type := mkAssignmentCreate {
  userId : string;
  task : string;
  admin : string
}.

Record AssignmentUpdate : Type := mkAssignmentUpdate {
  assignment_id : string;
  status : string
}.

Record AdminListResponse : Type := mkAdminListResponse {
  admins : list dict
}.

Record AssignmentListResponse : Type := mkAssignmentListResponse {
  assignments : list dict
}.

(** ** External collaborators *)

(** What the services import and do not define: the [passlib] hashing
    context (its random salt is an argument here), the [jwt] codec (the
    clock it checks [exp] against is an argument), how a [datetime]
    prints, the [TokenData] model of [app.models.token] (building it from
    the [sub] claim and reading [username] back), and the three settings
    of [app.config]. *)
Class Libs : Type := {
  pwd_context_hash : string → string → string;
  pwd_context_verify : string → value → result bool;
  jwt_encode : dict → string → string → string;
  jwt_decode : string → string → list string → Z → jwt_exn + dict;
  datetime_str : Z → string;
  TokenData : value → result value;
  SECRET_KEY : string;
  ALGORITHM : string;
  ACCESS_TOKEN_EXPIRE_MINUTES : Z
}.

Section app.
Context {L : Libs}.

(** [str(x)] *)
Definition py_str (v : value) : string :=
  match v with
  | VStr s => s
  | VBool b => if b then "True" else "False"
  | VInt n => pretty n
  | VDate t => datetime_str t
  | VOid o => bson.str o
  | VNone => "None"
  end.

(** ** app/auth.py *)

Definition verify_password (plain_password : string)
    (hashed_password : value) : result bool :=
  pwd_context_verify plain_password hashed_password.

Definition get_password_hash (salt : string) (password : string) : string :=
  pwd_context_hash salt password.

(** [timedelta(minutes=m)], in seconds. *)
Definition timedelta_minutes (m : Z) : Z := (60 * m)%Z.

(** [expires_delta or dflt]: a missing or zero [timedelta] is false. *)
Definition timedelta_or (expires_delta : option Z) (dflt : Z) : Z :=
  match expires_delta with
  | Some d => if bool_decide (d = 0%Z) then dflt else d
  | None => dflt
  end.

Definition create_access_token (now : Z) (data : dict)
    (expires_delta : option Z) : string :=
  let to_encode := data in
  let expire :=
    (now + timedelta_or expires_delta
             (timedelta_minutes ACCESS_TOKEN_EXPIRE_MINUTES))%Z in
  let to_encode := <["exp" := VDate expire]> to_encode in
  let encoded_jwt := jwt_encode to_encode SECRET_KEY ALGORITHM in
  encoded_jwt.

Definition decode_access_token (now : Z) (token : string)
  : result (option dict) :=
  try_except
    (match jwt_decode token SECRET_KEY [ALGORITHM] now with
     | inr payload => Ok (Some payload)
     | inl e => Raise (JwtError e)
     end)
    (λ e, match e with
          | JwtError ExpiredSignatureError => Ok None
          | JwtError j => if is_InvalidTokenError j then Ok None else Raise e
          | _ => Raise e
          end).

(** ** app/dependencies.py *)

Definition credentials_exception : HTTPException :=
  mkHTTPException HTTP_401_UNAUTHORIZED "Could not validate credentials"
    [("WWW-Authenticate", "Bearer")].

Definition get_current_user (now : Z) (token : string) : App dict :=
  try_except_App
    (payload ← lift (decode_access_token now token);
     match payload with
     | None => raise (HTTPError credentials_exception)
     | Some payload =>
         if negb (truthy_dict payload)
         then raise (HTTPError credentials_exception)
         else
           let username := dict_get payload "sub" VNone in
           token_data_username ← lift (TokenData username);
           user ← users_find_one [("username", token_data_username)];
           match user with
           | None => raise (HTTPError credentials_exception)
           | Some user =>
               if negb (truthy_dict user)
               then raise (HTTPError credentials_exception)
               else mret user
           end
     end)
    (λ e, match e with
          | JwtError j =>
              if is_InvalidTokenError j
              then raise (HTTPError credentials_exception) else raise e
          | _ => raise e
          end).

Definition get_current_active_user (current_user : dict) : result dict :=
  if negb (truthy (dict_get current_user "is_active" (VBool true)))
  then Raise (HTTPError (mkHTTPException 400 "Inactive user" []))
  else Ok current_user.

(** ** app/services/user_service.py *)

Definition username_taken : exn :=
  HTTPError (mkHTTPException HTTP_400_BAD_REQUEST "Username already taken" []).

Definition invalid_login : exn :=
  HTTPError (mkHTTPException HTTP_401_UNAUTHORIZED
               "Invalid username or password"
               [("WWW-Authenticate", "Bearer")]).

(** The [except errors.InvalidId] clause of a service. *)
Definition except_InvalidId {A} (detail : string) (e : exn) : App A :=
  match e with
  | InvalidId =>
      raise (HTTPError (mkHTTPException HTTP_400_BAD_REQUEST detail []))
  | _ => raise e
  end.

Definition register_user (salt : string) (oid : ObjectId)
    (user : UserCreate) : App dict :=
  existing_user ← users_find_one [("username", VStr (username user))];
  if truthy_opt existing_user then raise username_taken
  else
    let new_user : dict :=
      {[ "username" := VStr (username user);
         "password" := VStr (get_password_hash salt (password user));
         "role" := VStr "user" ]} in
    inserted_id ← users_insert_one oid new_user;
    mret ({[ "id" := VStr (bson.str inserted_id);
             "message" := VStr "User registered successfully" ]} : dict).

(** The part of a login after the account is found: the password check,
    the token and the response.  [not found or not verify_password(...)]
    evaluates its second operand only for a found document. *)
Definition login_found (now : Z) (plain : string)
    (found : option dict) : App dict :=
  match found with
  | None => raise invalid_login
  | Some found =>
      if negb (truthy_dict found) then raise invalid_login
      else
        hashed ← lift (getitem found "password");
        ok ← lift (verify_password plain hashed);
        if negb ok then raise invalid_login
        else
          sub ← lift (getitem found "username");
          let access_token :=
            create_access_token now {[ "sub" := sub ]}
              (Some (timedelta_minutes 30)) in
          _id ← lift (getitem found "_id");
          uname ← lift (getitem found "username");
          mret ({[ "id" := VStr (py_str _id);
                   "username" := uname;
                   "access_token" := VStr access_token;
                   "token_type" := VStr "bearer" ]} : dict)
  end.

Definition login_user (now : Z) (user : UserLogin) : App dict :=
  found_user ← users_find_one [("username", VStr (username user))];
  login_found now (password user) found_user.

Definition admin_not_found (name : string) : exn :=
  HTTPError (mkHTTPException HTTP_404_NOT_FOUND
               ("Admin '" ++ name ++ "' not found.") []).

Definition upload_assignment (now : Z) (oid : ObjectId)
    (assignment : AssignmentCreate) (current_user : dict) : App dict :=
  try_except_App
    (found ← users_find_one [("username", VStr (admin assignment))];
     match found with
     | None => raise (admin_not_found (admin assignment))
     | Some found =>
         if negb (truthy_dict found)
         then raise (admin_not_found (admin assignment))
         else
           role ← lift (getitem found "role");
           if negb (bool_decide (role = VStr "admin"))
           then raise (admin_not_found (admin assignment))
           else
             user_id ← lift (getitem current_user "_id");
             admin_id ← lift (getitem found "_id");
             let new_assignment : dict :=
               {[ "user_id" := user_id;
                  "userId" := VStr (userId assignment);
                  "task" := VStr (task assignment);
                  "admin_id" := admin_id;
                  "admin" := VStr (admin assignment);
                  "status" := VStr "pending";
                  "timestamp" := VDate now ]} in
             inserted_id ← assignments_insert_one oid new_assignment;
             mret ({[ "id" := VStr (bson.str inserted_id);
                      "message" := VStr "Assignment uploaded successfully" ]}
                   : dict)
     end)
    (except_InvalidId "Invalid Admin ID.").

Definition admin_entry (d : dict) : result dict :=
  _id ← getitem d "_id";
  uname ← getitem d "username";
  mret ({[ "id" := VStr (py_str _id); "username" := uname ]} : dict).

Definition get_admins : App AdminListResponse :=
  found ← users_find [("role", VStr "admin")] None;
  match found with
  | [] =>
      raise (HTTPError (mkHTTPException HTTP_404_NOT_FOUND
                          "No admins found." []))
  | _ =>
      admins_list ← lift (mapM admin_entry found);
      mret (mkAdminListResponse admins_list)
  end.

(** ** app/services/admin_service.py *)

Definition register_admin (salt : string) (oid : ObjectId)
    (new : UserCreate) : App dict :=
  existing_admin ← users_find_one [("username", VStr (username new))];
  if truthy_opt existing_admin then raise username_taken
  else
    let new_admin : dict :=
      {[ "username" := VStr (username new);
         "password" := VStr (get_password_hash salt (password new));
         "role" := VStr "admin" ]} in
    inserted_id ← users_insert_one oid new_admin;
    mret ({[ "id" := VStr (bson.str inserted_id);
             "message" := VStr "Admin registered successfully" ]} : dict).

Definition login_admin (now : Z) (cred : UserLogin) : App dict :=
  found_admin ← users_find_one
    [("username", VStr (username cred)); ("role", VStr "admin")];
  login_found now (password cred) found_admin.

Definition not_admin (detail : string) : exn :=
  HTTPError (mkHTTPException HTTP_403_FORBIDDEN detail []).

Definition assignment_entry (a : dict) : result dict :=
  _id ← getitem a "_id";
  uid ← getitem a "userId";
  tsk ← getitem a "task";
  adm ← getitem a "admin";
  st ← getitem a "status";
  ts ← getitem a "timestamp";
  mret ({[ "id" := VStr (py_str _id); "userId" := uid; "task" := tsk;
           "admin" := adm; "status" := st; "timestamp" := ts ]} : dict).

(** [if admin:] is false for a missing filter and for the empty string. *)
Definition filter_given (filter : option string) : bool :=
  match filter with
  | Some name => truthy (VStr name)
  | None => false
  end.

Definition get_assignments_for_admin (current_user : dict)
    (filter : option string) : App AssignmentListResponse :=
  try_except_App
    (role ← lift (getitem current_user "role");
     if negb (bool_decide (role = VStr "admin"))
     then raise (not_admin "Not authorized to admin")
     else
       found ←
         (if filter_given filter
          then assignments_find [("admin", VStr (default "" filter))]
                 (Some 100%nat)
          else
            _id ← lift (getitem current_user "_id");
            assignments_find [("admin_id", _id)] (Some 100%nat));
       entries ← lift (mapM assignment_entry found);
       mret (mkAssignmentListResponse entries))
    (except_InvalidId "Invalid Admin ID.").

Definition ObjectId_of_str (s : string) : result ObjectId :=
  match bson.parse s with
  | Some o => Ok o
  | None => Raise InvalidId
  end.

Definition update_assignment_status (assignment : AssignmentUpdate)
    (current_user : dict) : App dict :=
  try_except_App
    (role ← lift (getitem current_user "role");
     if negb (bool_decide (role = VStr "admin"))
     then raise (not_admin "Not authorized to accept assignments.")
     else
       object_id ← lift (ObjectId_of_str (assignment_id assignment));
       matched_count ← assignments_update_one
         [("_id", VOid object_id)] [("status", VStr (status assignment))];
       if bool_decide (matched_count = 0%nat)
       then raise (HTTPError (mkHTTPException HTTP_404_NOT_FOUND
                                "Assignment not found." []))
       else mret ({[ "message" :=
                       VStr "Assignment status updated successfully" ]}
                  : dict))
    (except_InvalidId "Invalid assignment ID.").

(** ** app/routes/user_routes.py and app/routes/admin_routes.py *)

(** A route that declares [Depends(get_current_active_user)] has
    [get_current_user] run on the bearer token, at the time [clock], and
    then the active check, before its body runs. *)
Definition current_active_user (clock : Z) (token : string) : App dict :=
  current_user ← get_current_user clock token;
  lift (get_current_active_user current_user).

Definition upload_assignment_endpoint (clock : Z) (token : string) (now : Z)
    (oid : ObjectId) (assignment : AssignmentCreate) : App dict :=
  current_user ← current_active_user clock token;
  upload_assignment now oid assignment current_user.

Definition get_admins_endpoint (clock : Z) (token : string)
  : App AdminListResponse :=
  current_user ← current_active_user clock token;
  get_admins.

Definition get_assignments_endpoint (clock : Z) (token : string)
    (filter : option string) : App AssignmentListResponse :=
  current_user ← current_active_user clock token;
  get_assignments_for_admin current_user filter.

Definition accept_assignment_endpoint (clock : Z) (token : string)
    (id : string) : App dict :=
  current_user ← current_active_user clock token;
  update_assignment_status (mkAssignmentUpdate id "accepted") current_user.

Definition reject_assignment_endpoint (clock : Z) (token : string)
    (id : string) : App dict :=
  current_user ← current_active_user clock token;
  update_assignment_status (mkAssignmentUpdate id "rejected") current_user.

End app.

(** ** A reference instance of the collaborators

    A small executable instance of [Libs], used to run the services on
    concrete stores.  A password hash is the password behind a fixed
    prefix; a token is the binary numeral of the code of its subject,
    expiry, key and algorithm. *)

Fixpoint pos_to_bits (p : positive) : string :=
  match p with
  | xH => EmptyString
  | xO p' => String "0" (pos_to_bits p')
  | xI p' => String "1" (pos_to_bits p')
  end.

Fixpoint bits_to_pos (s : string) : option positive :=
  match s with
  | EmptyString => Some xH
  | String a s' =>
      if bool_decide (a = "0"%char) then xO <$> bits_to_pos s'
      else if bool_decide (a = "1"%char) then xI <$> bits_to_pos s'
      else None
  end.

Definition ref_hash (salt : string) (plain : string) : string :=
  "$2b$" ++ plain.

Definition ref_verify (plain : string) (hashed : value) : result bool :=
  match hashed with
  | VStr h => Ok (bool_decide (h = "$2b$" ++ plain))
  | VNone => Ok false
  | _ => Raise TypeError
  end.

Definition ref_jwt_encode (payload : dict) (key alg : string) : string :=
  match payload !! "sub", payload !! "exp" with
  | Some (VStr sub), Some (VDate e) => pos_to_bits (encode (sub, e, key, alg))
  | _, _ => EmptyString
  end.

Definition ref_jwt_decode (token key : string) (algorithms : list string)
    (now : Z) : jwt_exn + dict :=
  match bits_to_pos token ≫= decode (A := string * Z * string * string) with
  | None => inl DecodeError
  | Some (sub, e, k, a) =>
      if negb (bool_decide (a ∈ algorithms)) then inl InvalidAlgorithmError
      else if negb (bool_decide (k = key)) then inl InvalidSignatureError
      else if bool_decide (e ≤ now)%Z then inl ExpiredSignatureError
      else inr {[ "sub" := VStr sub; "exp" := VInt e ]}
  end.

Definition ref_TokenData (v : value) : result value :=
  match v with
  | VStr _ | VNone => Ok v
  | _ => Raise ValidationError
  end.

Definition ref_libs : Libs := {|
  pwd_context_hash := ref_hash;
  pwd_context_verify := ref_verify;
  jwt_encode := ref_jwt_encode;
  jwt_decode := ref_jwt_decode;
  datetime_str := λ t, pretty t;
  TokenData := ref_TokenData;
  SECRET_KEY := "secret";
  ALGORITHM := "HS256";
  ACCESS_TOKEN_EXPIRE_MINUTES := 15
|}.

(** ** A small store to run the services on *)

Fixpoint zeros (n : nat) : string :=
  match n with
  | O => EmptyString
  | S n' => String "0" (zeros n')
  end.

(** The identifier whose digits are the decimal numeral of [n]. *)
Definition oid_of_nat (n : nat) : ObjectId :=
  let digits := pretty n in
  bson.mkObjectId (zeros (24 - String.length digits) +:+ digits).

Definition alice_doc : dict :=
  {[ "_id" := VOid (oid_of_nat 1);
     "username" := VStr "alice";
     "password" := VStr (ref_hash "salt1" "wonderland");
     "role" := VStr "admin" ]}.

Definition bob_doc : dict :=
  {[ "_id" := VOid (oid_of_nat 2);
     "username" := VStr "bob";
     "password" := VStr (ref_hash "salt2" "builder");
     "role" := VStr "user" ]}.

(** An assignment of bob's, addressed to alice. *)
Definition task_doc (n : nat) (st : string) : dict :=
  {[ "_id" := VOid (oid_of_nat n);
     "user_id" := VOid (oid_of_nat 2);
     "userId" := VStr "bob-1";
     "task" := VStr "essay";
     "admin_id" := VOid (oid_of_nat 1);
     "admin" := VStr "alice";
     "status" := VStr st;
     "timestamp" := VDate 1000 ]}.

Definition example_db : db :=
  mkDb [alice_doc; bob_doc] [task_doc 10 "rejected"].

(** The same users with a hundred and one assignments addressed to alice. *)
Definition crowded_db : db :=
  mkDb [alice_doc; bob_doc]
       ((λ n, task_doc n "pending") <$> seq 10 101).

Definition expired_token : string :=
  ref_jwt_encode {[ "sub" := VStr "bob"; "exp" := VDate 100 ]}
    "secret" "HS256".

Definition forged_token : string :=
  ref_jwt_encode {[ "sub" := VStr "bob"; "exp" := VDate 5000 ]}
    "guess" "HS256".

(** Further tokens, accounts and a codec for the examples below. *)

Definition valid_token (sub : string) : string :=
  ref_jwt_encode {[ "sub" := VStr sub; "exp" := VDate 5000 ]}
    "secret" "HS256".

(** What [valid_token sub] decodes to. *)
Definition claims_of (sub : string) : dict :=
  <["exp" := VInt 5000]> {[ "sub" := VStr sub ]}.

Definition anonymous_claims : dict := {[ "exp" := VInt 5000 ]}.

Definition no_claims : dict := ∅.

Definition dormant_bob : dict := <["is_active" := VBool false]> bob_doc.

(** The example store with bob's account switched off. *)
Definition dormant_db : db :=
  mkDb [alice_doc; dormant_bob] [task_doc 10 "rejected"].

(** A second admin, not stored. *)
Definition dave_doc : dict :=
  {[ "_id" := VOid (oid_of_nat 4);
     "username" := VStr "dave";
     "password" := VStr (ref_hash "salt4" "rover");
     "role" := VStr "admin" ]}.

(** The reference codec, taught two tokens that carry no subject. *)
Definition anon_jwt_decode (token key : string) (algorithms : list string)
    (now : Z) : jwt_exn + dict :=
  if bool_decide (token = "empty") then inr ∅
  else if bool_decide (token = "anonymous")
       then inr {[ "exp" := VInt 5000 ]}
       else ref_jwt_decode token key algorithms now.

Definition anon_libs : Libs := {|
  pwd_context_hash := ref_hash;
  pwd_context_verify := ref_verify;
  jwt_encode := ref_jwt_encode;
  jwt_decode := anon_jwt_decode;
  datetime_str := λ t, pretty t;
  TokenData := ref_TokenData;
  SECRET_KEY := "secret";
  ALGORITHM := "HS256";
  ACCESS_TOKEN_EXPIRE_MINUTES := 15
|}.







(** ** Identifiers that [ObjectId()] is sure to refuse *)

(** ASCII whitespace, which [bytes.fromhex] skips. *)
Definition is_ascii_space (a : ascii) : bool :=
  let n := nat_of_ascii a in
  ((9 <=? n) && (n <=? 13) || (n =? 32))%nat.

(** Some character is neither a hexadecimal digit nor ASCII whitespace. *)
Fixpoint has_foreign_char (s : string) : bool :=
  match s with
  | EmptyString => false
  | String a s' =>
      negb (bson.is_hex_digit a || is_ascii_space a) || has_foreign_char s'
  end.

(** The errors a service raises itself: the HTTP errors with status 400,
    403 and 404, and a [KeyError] on a missing field. *)
Definition service_error (e : exn) : bool :=
  match e with
  | HTTPError h =>
      bool_decide (status_code h ∈ [HTTP_400_BAD_REQUEST; HTTP_403_FORBIDDEN;
                                    HTTP_404_NOT_FOUND])
  | KeyError _ => true
  | _ => false
  end.

(** ** Predicates on stores *)

(** Some stored user carries the username [u]. *)
Definition username_present (u : string) (c : list dict) : Prop :=
  Exists (λ d, d !! "username" = Some (VStr u)) c.

(** Some stored user with role ["admin"] carries the username [u]. *)
Definition admin_present (u : string) (c : list dict) : Prop :=
  Exists (λ d, d !! "username" = Some (VStr u)
               ∧ d !! "role" = Some (VStr "admin")) c.

(** The usernames of a collection, in store order. *)
Definition usernames (c : list dict) : list value :=
  omap (λ d, d !! "username") c.

(** The data model's uniqueness of usernames. *)
Definition unique_usernames (c : list dict) : Prop := NoDup (usernames c).

Definition is_str (o : option value) : bool :=
  match o with
  | Some (VStr _) => true
  | _ => false
  end.

Definition is_oid (o : option value) : bool :=
  match o with
  | Some (VOid _) => true
  | _ => false
  end.

(** A user document of the data model: a store identifier, a username, a
    password hash and a role ([is_active] is optional). *)
Definition user_doc_ok (d : dict) : bool :=
  is_oid (d !! "_id") && is_str (d !! "username")
  && is_str (d !! "password") && is_str (d !! "role").

Definition users_ok (c : list dict) : bool := forallb user_doc_ok c.

(** An assignment document as [upload_assignment] writes it. *)
Definition assignment_doc_ok (d : dict) : bool :=
  is_oid (d !! "_id") && is_str (d !! "userId") && is_str (d !! "task")
  && is_str (d !! "admin") && is_str (d !! "status")
  && bool_decide (is_Some (d !! "timestamp")).

Definition assignments_ok (c : list dict) : bool :=
  forallb assignment_doc_ok c.

Definition is_admin_doc (d : dict) : bool :=
  bool_decide (d !! "role" = Some (VStr "admin")).



(** The documented contract of the JWT codec on the payloads the services
    sign: decoding with the signing key and algorithm gives the claims
    back, with [exp] as a number, until the clock reaches [exp]. *)
Definition jwt_contract (L : Libs) : Prop :=
  ∀ sub e key alg now,
    jwt_decode (jwt_encode (<["exp" := VDate e]> {[ "sub" := VStr sub ]})
                  key alg) key [alg] now
    = if bool_decide (e ≤ now)%Z then inl ExpiredSignatureError
      else inr (<["exp" := VInt e]> {[ "sub" := VStr sub ]}).

(** The [{id, username}] pair [get_admins] shows for a stored admin. *)
Definition admin_pair {L : Libs} (d : dict) : dict :=
  {[ "id" := VStr (py_str (dict_get d "_id" VNone));
     "username" := dict_get d "username" VNone ]}.

(** The fields [get_assignments_for_admin] shows of a stored assignment. *)
Definition assignment_view {L : Libs} (a : dict) : dict :=
  {[ "id" := VStr (py_str (dict_get a "_id" VNone));
     "userId" := dict_get a "userId" VNone;
     "task" := dict_get a "task" VNone;
     "admin" := dict_get a "admin" VNone;
     "status" := dict_get a "status" VNone;
     "timestamp" := dict_get a "timestamp" VNone ]}.

(** * Properties *)

Section mongo_facts.

Lemma matches_key_value (k : string) (v : value) (d : dict) :
  v ≠ VNone →
  mongo.matches [(k, v)] d = bool_decide (d !! k = Some v).
Proof.
  intros Hv. unfold mongo.matches, mongo.field_matches.
  cbn [forallb fst snd]. rewrite andb_true_r.
  destruct (d !! k) as [w|].
  - apply bool_decide_ext. naive_solver.
  - rewrite !bool_decide_eq_false_2; [done| done |]. congruence.
Qed.

Lemma matches_username (u : string) (d : dict) :
  mongo.matches [("username", VStr u)] d = true
  ↔ d !! "username" = Some (VStr u).
Proof. by rewrite matches_key_value, bool_decide_eq_true. Qed.

Lemma matches_cons (kv : string * value) (q : mongo.query) (d : dict) :
  mongo.matches (kv :: q) d
  = mongo.field_matches d kv && mongo.matches q d.
Proof. reflexivity. Qed.

Lemma find_one_Some (q : mongo.query) (c : list dict) (d : dict) :
  mongo.find_one q c = Some d → d ∈ c ∧ mongo.matches q d = true.
Proof.
  induction c as [|d' c IH]; simpl; [done|].
  destruct (mongo.matches q d') eqn:Hm.
  - intros [= ->]. split; [left | done].
  - intros H. destruct (IH H). split; [by right | done].
Qed.

Lemma find_one_None (q : mongo.query) (c : list dict) :
  mongo.find_one q c = None ↔ Forall (λ d, mongo.matches q d = false) c.
Proof.
  induction c as [|d' c IH]; simpl.
  - split; [constructor | done].
  - destruct (mongo.matches q d') eqn:Hm.
    + split; [done |]. intros H. apply Forall_cons in H as [H _]. congruence.
    + rewrite IH. split; [by constructor |].
      intros H. by apply Forall_cons in H as [_ H].
Qed.

Lemma find_one_is_Some (q : mongo.query) (c : list dict) (d : dict) :
  d ∈ c → mongo.matches q d = true → is_Some (mongo.find_one q c).
Proof.
  intros Hin Hm. destruct (mongo.find_one q c) eqn:E; [by eexists|].
  apply find_one_None in E. rewrite Forall_forall in E.
  specialize (E d Hin). congruence.
Qed.

Lemma truthy_dict_lookup (d : dict) (k : string) (v : value) :
  d !! k = Some v → truthy_dict d = true.
Proof.
  intros H. unfold truthy_dict. rewrite bool_decide_eq_false_2; [done|].
  intros ->. by rewrite lookup_empty in H.
Qed.

Lemma usernames_elem (c : list dict) (d : dict) (v : value) :
  d ∈ c → d !! "username" = Some v → v ∈ usernames c.
Proof.
  intros Hin Hu. unfold usernames. apply list_elem_of_omap. eauto.
Qed.

(** With unique usernames, two stored documents of one username are one
    document. *)
Lemma unique_usernames_eq (c : list dict) (d1 d2 : dict) (v : value) :
  unique_usernames c → d1 ∈ c → d2 ∈ c →
  d1 !! "username" = Some v → d2 !! "username" = Some v → d1 = d2.
Proof.
  unfold unique_usernames.
  induction c as [|d c IH]; intros Hnd H1 H2 Hu1 Hu2.
  - by apply not_elem_of_nil in H1.
  - unfold usernames in Hnd. simpl in Hnd.
    apply elem_of_cons in H1 as [->|H1], H2 as [->|H2]; [done| | |].
    + rewrite Hu1 in Hnd. simpl in Hnd. apply NoDup_cons in Hnd as [Hn _].
      destruct Hn. by eapply usernames_elem.
    + rewrite Hu2 in Hnd. simpl in Hnd. apply NoDup_cons in Hnd as [Hn _].
      destruct Hn. by eapply usernames_elem.
    + apply IH; try done. destruct (d !! "username"); simpl in Hnd; [|done].
      by apply NoDup_cons in Hnd as [_ Hnd].
Qed.

Lemma find_one_username_unique (c : list dict) (d : dict) (u : string) :
  unique_usernames c → d ∈ c → d !! "username" = Some (VStr u) →
  mongo.find_one [("username", VStr u)] c = Some d.
Proof.
  intros Hnd Hin Hu.
  destruct (find_one_is_Some [("username", VStr u)] c d Hin) as [d' Hd'].
  { by apply matches_username. }
  rewrite Hd'. f_equal. apply find_one_Some in Hd' as [Hin' Hm].
  apply matches_username in Hm. by eapply unique_usernames_eq.
Qed.

End mongo_facts.

Section properties.
Context {L : Libs}.

(** ** The active-user check *)

(** C1 (as amended): a caller whose [is_active] flag is false is rejected
    with status 400 and the message "Inactive user"; a caller whose flag is
    true or missing is returned unchanged. *)
Theorem active_check_rejects_inactive (current_user : dict) :
  (current_user !! "is_active" = Some (VBool false) →
   get_current_active_user current_user
   = Raise (HTTPError (mkHTTPException HTTP_400_BAD_REQUEST
                         "Inactive user" [])))
  ∧ (current_user !! "is_active" = Some (VBool true)
     ∨ current_user !! "is_active" = None →
     get_current_active_user current_user = Ok current_user).
Proof.
  unfold get_current_active_user, dict_get. split.
  - by intros ->.
  - by intros [-> | ->].
Qed.

(** ** Registration *)

Lemma register_lookup_taken (u : string) (c : list dict) :
  username_present u c →
  truthy_opt (mongo.find_one [("username", VStr u)] c) = true.
Proof.
  intros Hp. apply Exists_exists in Hp as (d & Hin & Hu).
  destruct (find_one_is_Some [("username", VStr u)] c d Hin) as [d' Hd'].
  { by apply matches_username. }
  rewrite Hd'. apply find_one_Some in Hd' as [_ Hm].
  apply matches_username in Hm. simpl. by eapply truthy_dict_lookup.
Qed.

Lemma register_lookup_free (u : string) (c : list dict) :
  ¬ username_present u c →
  mongo.find_one [("username", VStr u)] c = None.
Proof.
  intros Hp. apply find_one_None, Forall_forall. intros d Hin.
  destruct (mongo.matches _ d) eqn:Hm; [|done].
  destruct Hp. apply Exists_exists. exists d.
  split; [done|]. by apply matches_username.
Qed.

Lemma register_taken (salt : string) (oid : ObjectId) (user : UserCreate)
    (s : db) :
  username_present (username user) (users_collection s) →
  register_user salt oid user s = (Raise username_taken, s)
  ∧ register_admin salt oid user s = (Raise username_taken, s).
Proof.
  intros Hp. apply register_lookup_taken in Hp.
  unfold register_user, register_admin, users_find_one, mbind, App_bind.
  by rewrite Hp.
Qed.

Lemma register_fresh (salt : string) (oid : ObjectId) (user : UserCreate)
    (s : db) :
  ¬ username_present (username user) (users_collection s) →
  register_user salt oid user s
  = (Ok {[ "id" := VStr (bson.str oid);
           "message" := VStr "User registered successfully" ]},
     mkDb (users_collection s
           ++ [ <["_id" := VOid oid]>
                  {[ "username" := VStr (username user);
                     "password" :=
                       VStr (get_password_hash salt (password user));
                     "role" := VStr "user" ]} ])
          (assignments_collection s))
  ∧ register_admin salt oid user s
    = (Ok {[ "id" := VStr (bson.str oid);
             "message" := VStr "Admin registered successfully" ]},
       mkDb (users_collection s
             ++ [ <["_id" := VOid oid]>
                    {[ "username" := VStr (username user);
                       "password" :=
                         VStr (get_password_hash salt (password user));
                       "role" := VStr "admin" ]} ])
            (assignments_collection s)).
Proof.
  intros Hp. apply register_lookup_free in Hp.
  unfold register_user, register_admin, users_find_one, mbind, App_bind.
  by rewrite Hp.
Qed.

(** C2 (as amended): registering a username that is already stored fails
    with status 400 "Username already taken", in the user and in the admin
    variant, and leaves the store as it was; registering a new username
    appends one document with the username, the hashed password and the
    fixed role, and returns the new identifier. *)
Theorem register_taken_or_fresh (salt : string) (oid : ObjectId)
    (user : UserCreate) (s : db) :
  (username_present (username user) (users_collection s) →
   register_user salt oid user s
   = (Raise (HTTPError (mkHTTPException HTTP_400_BAD_REQUEST
                          "Username already taken" [])), s)
   ∧ register_admin salt oid user s
     = (Raise (HTTPError (mkHTTPException HTTP_400_BAD_REQUEST
                            "Username already taken" [])), s))
  ∧ (¬ username_present (username user) (users_collection s) →
     register_user salt oid user s
     = (Ok {[ "id" := VStr (bson.str oid);
              "message" := VStr "User registered successfully" ]},
        mkDb (users_collection s
              ++ [ <["_id" := VOid oid]>
                     {[ "username" := VStr (username user);
                        "password" :=
                          VStr (get_password_hash salt (password user));
                        "role" := VStr "user" ]} ])
             (assignments_collection s))
     ∧ register_admin salt oid user s
       = (Ok {[ "id" := VStr (bson.str oid);
                "message" := VStr "Admin registered successfully" ]},
          mkDb (users_collection s
                ++ [ <["_id" := VOid oid]>
                       {[ "username" := VStr (username user);
                          "password" :=
                            VStr (get_password_hash salt (password user));
                          "role" := VStr "admin" ]} ])
               (assignments_collection s))).
Proof.
  split; intros Hp.
  - by apply register_taken.
  - by apply register_fresh.
Qed.

(** C10: registration, in either variant, builds a document with exactly
    the fields username, password and role; the stored document is that
    one with the store's [_id], it has no [is_active] field, and the
    active-user check returns it unchanged, as it does every document
    without that field. *)
Theorem registered_account_is_active (salt : string) (oid : ObjectId)
    (user : UserCreate) (s : db) :
  ¬ username_present (username user) (users_collection s) →
  (∀ variant : bool,
     let register := if variant then register_admin else register_user in
     ∃ new_doc : dict,
       dom new_doc = ({[ "username"; "password"; "role" ]} : gset string)
       ∧ users_collection (register salt oid user s).2
         = (users_collection s ++ [ <["_id" := VOid oid]> new_doc ])%list
       ∧ (<["_id" := VOid oid]> new_doc) !! "is_active" = None
       ∧ get_current_active_user (<["_id" := VOid oid]> new_doc)
         = Ok (<["_id" := VOid oid]> new_doc))
  ∧ (∀ d : dict, d !! "is_active" = None →
               get_current_active_user d = Ok d).
Proof.
  intros Hp.
  destruct (register_fresh salt oid user s Hp) as [Hu Ha].
  split.
  - intros [|]; cbv beta iota zeta; [rewrite Ha | rewrite Hu];
      (eexists; split; [|split; [reflexivity|split]]);
      [ rewrite !dom_insert_L, dom_singleton_L; set_solver | done | done
      | rewrite !dom_insert_L, dom_singleton_L; set_solver | done | done ].
  - intros d Hd. unfold get_current_active_user, dict_get. by rewrite Hd.
Qed.

(** ** Tokens and the access guard *)

(** C3: whenever [jwt.decode] raises an [InvalidTokenError] (an expired
    signature, a bad signature, a malformed token, ...),
    [decode_access_token] returns [None] instead of raising and
    [get_current_user] fails with the one 401 "Could not validate
    credentials" error, the store untouched; so an expired token and a
    tampered one lead to the same outcome. *)
Theorem invalid_token_unauthorized (now : Z) (expired tampered : string)
    (e : jwt_exn) (s : db) :
  jwt_decode expired SECRET_KEY [ALGORITHM] now = inl ExpiredSignatureError →
  jwt_decode tampered SECRET_KEY [ALGORITHM] now = inl e →
  is_InvalidTokenError e = true →
  decode_access_token now expired = Ok None
  ∧ decode_access_token now tampered = Ok None
  ∧ get_current_user now tampered s
    = (Raise (HTTPError (mkHTTPException HTTP_401_UNAUTHORIZED
                           "Could not validate credentials"
                           [("WWW-Authenticate", "Bearer")])), s)
  ∧ get_current_user now expired s = get_current_user now tampered s.
Proof.
  intros Hexp Hbad He.
  assert (decode_access_token now expired = Ok None) as H1.
  { unfold decode_access_token. by rewrite Hexp. }
  assert (decode_access_token now tampered = Ok None) as H2.
  { unfold decode_access_token. rewrite Hbad. simpl.
    destruct e; try done. }
  split; [done|]. split; [done|].
  unfold get_current_user, try_except_App, mbind, App_bind, lift.
  by rewrite H1, H2.
Qed.

(** ** Login *)

Lemma login_found_ok (now : Z) (plain : string) (d : dict)
    (hashed uname _id : value) (s : db) :
  d !! "password" = Some hashed →
  d !! "username" = Some uname →
  d !! "_id" = Some _id →
  verify_password plain hashed = Ok true →
  login_found now plain (Some d) s
  = (Ok {[ "id" := VStr (py_str _id);
           "username" := uname;
           "access_token" :=
             VStr (create_access_token now {[ "sub" := uname ]}
                     (Some (timedelta_minutes 30)));
           "token_type" := VStr "bearer" ]}, s).
Proof.
  intros Hp Hu Hi Hv. unfold login_found.
  rewrite (truthy_dict_lookup d _ _ Hp). simpl.
  unfold mbind, App_bind, lift, getitem. by rewrite Hp, Hv, Hu, Hi.
Qed.


Lemma matches_username_role (u : string) (d : dict) :
  mongo.matches [("username", VStr u); ("role", VStr "admin")] d = true
  ↔ d !! "username" = Some (VStr u) ∧ d !! "role" = Some (VStr "admin").
Proof.
  rewrite matches_cons, andb_true_iff.
  rewrite matches_key_value, bool_decide_eq_true by done.
  unfold mongo.field_matches. cbn [fst snd].
  destruct (d !! "username") as [v|]; rewrite bool_decide_eq_true;
    cbn; split; intros [H1 H2]; split; congruence.
Qed.

Lemma find_one_admin_unique (c : list dict) (d : dict) (u : string) :
  unique_usernames c → d ∈ c → d !! "username" = Some (VStr u) →
  mongo.find_one [("username", VStr u); ("role", VStr "admin")] c
  = if is_admin_doc d then Some d else None.
Proof.
  intros Hnd Hin Hu. set (q := [_; _]).
  unfold is_admin_doc. case_bool_decide as Hr.
  - destruct (find_one_is_Some q c d Hin) as [d' Hd'].
    { by apply matches_username_role. }
    rewrite Hd'. f_equal. apply find_one_Some in Hd' as [Hin' Hm].
    apply matches_username_role in Hm as [Hu' _].
    by eapply unique_usernames_eq.
  - destruct (mongo.find_one q c) as [d'|] eqn:Hd'; [|done].
    apply find_one_Some in Hd' as [Hin' Hm].
    apply matches_username_role in Hm as [Hu' Hr'].
    assert (d' = d) as -> by by eapply unique_usernames_eq. done.
Qed.

(** C4: whenever admin login succeeds, the account it answers with is a
    stored document of role ["admin"] carrying the login username.  With
    usernames unique in the store, admin login with the username of a
    stored account of role ["user"] fails with status 401 whatever the
    password, the right one included, and admin login with the username
    of a stored admin and a password that verifies against its hash
    succeeds, with a token for that username. *)
Theorem admin_login_only_admins (now : Z) (cred : UserLogin) (s : db) :
  (∀ resp s',
     login_admin now cred s = (Ok resp, s') →
     ∃ a, a ∈ users_collection s
          ∧ a !! "role" = Some (VStr "admin")
          ∧ a !! "username" = Some (VStr (username cred))
          ∧ resp !! "id" = (λ i, VStr (py_str i)) <$> a !! "_id")
  ∧ (∀ d,
       unique_usernames (users_collection s) →
       d ∈ users_collection s →
       d !! "username" = Some (VStr (username cred)) →
       d !! "role" = Some (VStr "user") →
       login_admin now cred s
       = (Raise (HTTPError (mkHTTPException HTTP_401_UNAUTHORIZED
                              "Invalid username or password"
                              [("WWW-Authenticate", "Bearer")])), s))
  ∧ (∀ d hashed _id,
       unique_usernames (users_collection s) →
       d ∈ users_collection s →
       d !! "username" = Some (VStr (username cred)) →
       d !! "role" = Some (VStr "admin") →
       d !! "password" = Some hashed →
       d !! "_id" = Some _id →
       verify_password (password cred) hashed = Ok true →
       login_admin now cred s
       = (Ok {[ "id" := VStr (py_str _id);
                "username" := VStr (username cred);
                "access_token" :=
                  VStr (create_access_token now
                          {[ "sub" := VStr (username cred) ]}
                          (Some (timedelta_minutes 30)));
                "token_type" := VStr "bearer" ]}, s)).
Proof.
  split; [|split].
  - intros resp s'. unfold login_admin, users_find_one, mbind, App_bind.
    destruct (mongo.find_one _ (users_collection s)) as [a|] eqn:Hf; [|done].
    apply find_one_Some in Hf as [Hin Hm].
    apply matches_username_role in Hm as [Hu Hr].
    unfold login_found. destruct (truthy_dict a); [|done]. simpl.
    unfold mbind, App_bind, lift, getitem.
    destruct (a !! "password") as [h|]; [|done].
    destruct (verify_password _ h) as [[|]|]; try done. simpl.
    rewrite Hu. destruct (a !! "_id") as [i|] eqn:Hi; [|done].
    intros [= <- <-]. exists a. by rewrite Hi.
  - intros d Hnd Hin Hu Hr.
    unfold login_admin, users_find_one, mbind, App_bind.
    rewrite (find_one_admin_unique _ d _ Hnd Hin Hu). unfold is_admin_doc.
    rewrite bool_decide_eq_false_2; [done|]. by rewrite Hr.
  - intros d hashed _id Hnd Hin Hu Hr Hp Hi Hv.
    unfold login_admin, users_find_one, mbind, App_bind.
    rewrite (find_one_admin_unique _ d _ Hnd Hin Hu). unfold is_admin_doc.
    rewrite bool_decide_eq_true_2 by done.
    by apply (login_found_ok now _ d hashed _ _id).
Qed.


(** ** Assignment status *)

Lemma update_one_first (q : mongo.query) (upd : list (string * value))
    (c : list dict) (i : nat) (d : dict) :
  c !! i = Some d →
  mongo.matches q d = true →
  (∀ j d', (j < i)%nat → c !! j = Some d' → mongo.matches q d' = false) →
  mongo.update_one q upd c = (1%nat, <[i := mongo.set_fields upd d]> c).
Proof.
  revert i. induction c as [|d0 c IH]; intros i Hi Hm Hfirst; [done|].
  destruct i as [|i]; simpl in *.
  - injection Hi as ->. by rewrite Hm.
  - rewrite (Hfirst 0%nat d0) by (done || lia).
    rewrite (IH i); [done | done | done |].
    intros j d' Hj Hd'. apply (Hfirst (S j)); [lia | done].
Qed.

(** C5: a caller whose role is not ["admin"] gets status 403 and the store
    is left exactly as it was; for an admin caller and a well-formed
    identifier of a stored assignment the [status] field of that
    assignment is overwritten with the new value, whatever the value and
    whatever status the assignment had, and nothing else changes. *)
Theorem set_status_admin_only (assignment : AssignmentUpdate)
    (current_user : dict) (s : db) :
  (∀ role, current_user !! "role" = Some role → role ≠ VStr "admin" →
     update_assignment_status assignment current_user s
     = (Raise (HTTPError (mkHTTPException HTTP_403_FORBIDDEN
                            "Not authorized to accept assignments." [])),
        s))
  ∧ (∀ o i d,
       current_user !! "role" = Some (VStr "admin") →
       bson.parse (assignment_id assignment) = Some o →
       assignments_collection s !! i = Some d →
       d !! "_id" = Some (VOid o) →
       (∀ j d', (j < i)%nat → assignments_collection s !! j = Some d' →
                d' !! "_id" ≠ Some (VOid o)) →
       update_assignment_status assignment current_user s
       = (Ok {[ "message" :=
                  VStr "Assignment status updated successfully" ]},
          mkDb (users_collection s)
               (<[i := <["status" := VStr (status assignment)]> d]>
                  (assignments_collection s)))).
Proof.
  split.
  - intros role Hr Hne.
    unfold update_assignment_status, try_except_App, mbind, App_bind, lift,
      getitem.
    rewrite Hr. rewrite bool_decide_eq_false_2 by done. done.
  - intros o i d Hr Ho Hi Hid Hfirst.
    unfold update_assignment_status, try_except_App, mbind, App_bind, lift,
      getitem, ObjectId_of_str, assignments_update_one.
    rewrite Hr, Ho. cbn [negb bool_decide decide_rel].
    rewrite bool_decide_eq_true_2 by done. cbn [negb].
    rewrite (update_one_first _ _ _ i d); [done | done | |].
    + rewrite matches_key_value by done. by apply bool_decide_eq_true_2.
    + intros j d' Hj Hd'. rewrite matches_key_value by done.
      apply bool_decide_eq_false_2. by eapply Hfirst.
Qed.

(** ** Uploading an assignment *)

Lemma users_ok_elem (c : list dict) (d : dict) :
  users_ok c = true → d ∈ c → user_doc_ok d = true.
Proof.
  unfold users_ok. rewrite forallb_forall. intros H Hin.
  apply H. by apply list_elem_of_In.
Qed.

Lemma is_str_Some (o : option value) :
  is_str o = true → ∃ x, o = Some (VStr x).
Proof. destruct o as [[]|]; naive_solver. Qed.

Lemma is_oid_Some (o : option value) :
  is_oid o = true → ∃ x, o = Some (VOid x).
Proof. destruct o as [[]|]; naive_solver. Qed.

Lemma user_doc_ok_fields (d : dict) :
  user_doc_ok d = true →
  ∃ o u h r, d !! "_id" = Some (VOid o) ∧ d !! "username" = Some (VStr u)
             ∧ d !! "password" = Some (VStr h) ∧ d !! "role" = Some (VStr r).
Proof.
  unfold user_doc_ok. rewrite !andb_true_iff. intros [[[Hi Hu] Hp] Hr].
  apply is_oid_Some in Hi as [o ->]. apply is_str_Some in Hu as [u ->].
  apply is_str_Some in Hp as [h ->]. apply is_str_Some in Hr as [r ->].
  by exists o, u, h, r.
Qed.

(** C6: over well-formed user documents, an upload naming a username that
    no stored admin carries fails with status 404 and leaves the store as
    it was; with usernames unique, an upload naming a stored admin appends
    exactly one assignment, with status ["pending"], the current time as
    timestamp, the caller's store identifier as [user_id] and the admin's
    as [admin_id]. *)
Theorem upload_requires_admin (now : Z) (oid : ObjectId)
    (assignment : AssignmentCreate) (current_user : dict) (s : db) :
  users_ok (users_collection s) = true →
  (¬ admin_present (admin assignment) (users_collection s) →
   upload_assignment now oid assignment current_user s
   = (Raise (HTTPError (mkHTTPException HTTP_404_NOT_FOUND
                          ("Admin '" ++ admin assignment ++ "' not found.")
                          [])), s))
  ∧ (∀ a caller_id admin_id,
       unique_usernames (users_collection s) →
       a ∈ users_collection s →
       a !! "username" = Some (VStr (admin assignment)) →
       a !! "role" = Some (VStr "admin") →
       a !! "_id" = Some admin_id →
       current_user !! "_id" = Some caller_id →
       upload_assignment now oid assignment current_user s
       = (Ok {[ "id" := VStr (bson.str oid);
                "message" := VStr "Assignment uploaded successfully" ]},
          mkDb (users_collection s)
               (assignments_collection s
                ++ [ <["_id" := VOid oid]>
                       {[ "user_id" := caller_id;
                          "userId" := VStr (userId assignment);
                          "task" := VStr (task assignment);
                          "admin_id" := admin_id;
                          "admin" := VStr (admin assignment);
                          "status" := VStr "pending";
                          "timestamp" := VDate now ]} ]))).
Proof.
  intros Hok. split.
  - intros Hno.
    unfold upload_assignment, try_except_App, users_find_one,
      mbind, App_bind, lift.
    destruct (mongo.find_one _ (users_collection s)) as [d|] eqn:Hf;
      [|done].
    apply find_one_Some in Hf as [Hin Hm]. apply matches_username in Hm.
    rewrite (truthy_dict_lookup d _ _ Hm). cbn [negb].
    destruct (user_doc_ok_fields d (users_ok_elem _ _ Hok Hin))
      as (o & u & h & r & _ & _ & _ & Hr).
    unfold getitem. rewrite Hr.
    rewrite bool_decide_eq_false_2; [done|].
    intros [= ->]. apply Hno, Exists_exists. by exists d.
  - intros a caller_id admin_id Hnd Hin Hu Hr Hi Hc.
    unfold upload_assignment, try_except_App, users_find_one,
      assignments_insert_one, mbind, App_bind, lift.
    rewrite (find_one_username_unique _ a _ Hnd Hin Hu).
    rewrite (truthy_dict_lookup a _ _ Hu). cbn [negb].
    unfold getitem. rewrite Hr, Hi, Hc.
    by rewrite bool_decide_eq_true_2.
Qed.

(** ** Listing admins and assignments *)

Lemma mapM_Ok {A B} (f : A → result B) (g : A → B) (l : list A) :
  (∀ x, x ∈ l → f x = Ok (g x)) → mapM f l = Ok (g <$> l).
Proof.
  induction l as [|x l IH]; intros H; [done|].
  cbn. rewrite (H x) by left. cbn.
  rewrite IH; [done|]. intros y Hy. apply H. by right.
Qed.

Lemma mapM_no_http {A B} (f : A → result B) (l : list A) :
  (∀ x, http_status (f x) = None) → http_status (mapM f l) = None.
Proof.
  intros H. induction l as [|x l IH]; [done|].
  cbn. specialize (H x). destruct (f x) as [y|e]; [|done]. cbn.
  destruct (mapM f l); done.
Qed.

Lemma admin_entry_no_http (d : dict) : http_status (admin_entry d) = None.
Proof.
  unfold admin_entry, getitem. destruct (d !! "_id"); [|done]. cbn.
  destruct (d !! "username"); done.
Qed.

Lemma find_role_admin (c : list dict) :
  mongo.find [("role", VStr "admin")] c = List.filter is_admin_doc c.
Proof.
  unfold mongo.find. apply List.filter_ext. intros d.
  by rewrite matches_key_value.
Qed.

(** C7: [get_admins] fails with status 404 exactly when no stored user
    has role ["admin"], never answering with an empty list; otherwise,
    over well-formed user documents, it returns the [{id, username}] pair
    of every stored admin, in store order. *)
Theorem list_admins_not_found_iff_none (s : db) :
  (List.filter is_admin_doc (users_collection s) = [] →
   get_admins s
   = (Raise (HTTPError (mkHTTPException HTTP_404_NOT_FOUND
                          "No admins found." [])), s))
  ∧ (http_status (get_admins s).1 = Some HTTP_404_NOT_FOUND →
     List.filter is_admin_doc (users_collection s) = [])
  ∧ (List.filter is_admin_doc (users_collection s) ≠ [] →
     users_ok (users_collection s) = true →
     get_admins s
     = (Ok (mkAdminListResponse
              (admin_pair <$> List.filter is_admin_doc (users_collection s))),
        s)).
Proof.
  unfold get_admins, users_find, mbind, App_bind, lift. cbn [mongo.to_list].
  rewrite find_role_admin.
  destruct (List.filter is_admin_doc (users_collection s))
    as [|d l] eqn:Hl.
  - split; [done|]. split; [done|]. by intros [].
  - split; [done|]. split.
    + pose proof (mapM_no_http admin_entry (d :: l) admin_entry_no_http).
      destruct (mapM admin_entry (d :: l)); [done|].
      cbn in *. congruence.
    + intros _ Hok. rewrite (mapM_Ok admin_entry admin_pair); [done|].
      intros x Hx. rewrite <- Hl in Hx.
      apply list_elem_of_In, List.filter_In in Hx as [Hx _].
      apply list_elem_of_In in Hx.
      destruct (user_doc_ok_fields x (users_ok_elem _ _ Hok Hx))
        as (o & u & h & r & Hi & Hu & _ & _).
      unfold admin_entry, admin_pair, getitem, dict_get.
      by rewrite Hi, Hu.
Qed.

Lemma assignment_entry_view (a : dict) :
  assignment_doc_ok a = true → assignment_entry a = Ok (assignment_view a).
Proof.
  unfold assignment_doc_ok. rewrite !andb_true_iff, bool_decide_eq_true.
  intros [[[[[Hi Hu] Ht] Ha] Hs] [ts Hts]].
  apply is_oid_Some in Hi as [o Hi]. apply is_str_Some in Hu as [u Hu].
  apply is_str_Some in Ht as [t Ht]. apply is_str_Some in Ha as [ad Ha].
  apply is_str_Some in Hs as [st Hs].
  unfold assignment_entry, assignment_view, getitem, dict_get.
  by rewrite Hi, Hu, Ht, Ha, Hs, Hts.
Qed.

Lemma assignments_view_list (c l : list dict) :
  assignments_ok c = true → (∀ a, a ∈ l → a ∈ c) →
  mapM assignment_entry l = Ok (assignment_view <$> l).
Proof.
  unfold assignments_ok. rewrite forallb_forall. intros Hok Hsub.
  apply mapM_Ok. intros a Ha. apply assignment_entry_view, Hok.
  by apply list_elem_of_In, Hsub.
Qed.

Lemma take_filter_sub (n : nat) (f : dict → bool) (c : list dict) (a : dict) :
  a ∈ take n (List.filter f c) → a ∈ c.
Proof.
  intros Ha. apply subseteq_take in Ha.
  apply list_elem_of_In, List.filter_In in Ha as [Ha _].
  by apply list_elem_of_In.
Qed.

(** C8 (as amended): for an admin caller over well-formed assignment
    documents, a non-empty filter returns the first hundred stored
    assignments, in store order, whose [admin] field equals the filter,
    whoever the caller is; a missing or empty filter returns the first
    hundred whose [admin_id] equals the caller's store identifier. *)
Theorem list_assignments_first_hundred (current_user : dict)
    (filter : option string) (s : db) :
  current_user !! "role" = Some (VStr "admin") →
  assignments_ok (assignments_collection s) = true →
  (∀ name, filter = Some name → name ≠ "" →
     get_assignments_for_admin current_user filter s
     = (Ok (mkAssignmentListResponse
              (assignment_view <$>
                 take 100 (List.filter
                             (λ a, bool_decide
                                     (a !! "admin" = Some (VStr name)))
                             (assignments_collection s)))), s))
  ∧ (∀ cid, filter = None ∨ filter = Some "" →
       current_user !! "_id" = Some (VOid cid) →
       get_assignments_for_admin current_user filter s
       = (Ok (mkAssignmentListResponse
                (assignment_view <$>
                   take 100 (List.filter
                               (λ a, bool_decide
                                       (a !! "admin_id" = Some (VOid cid)))
                               (assignments_collection s)))), s)).
Proof.
  intros Hr Hok. split.
  - intros name -> Hne.
    unfold get_assignments_for_admin, try_except_App, assignments_find,
      mbind, App_bind, lift, getitem.
    rewrite Hr. cbn [negb bool_decide decide_rel].
    rewrite bool_decide_eq_true_2 by done.
    cbn [negb filter_given truthy default mongo.to_list].
    rewrite bool_decide_eq_false_2 by done. cbn [negb]. unfold mongo.find.
    rewrite (List.filter_ext _
               (λ a, bool_decide (a !! "admin" = Some (VStr name))))
      by (intros a; by rewrite matches_key_value).
    rewrite (assignments_view_list (assignments_collection s)); [done|done|].
    intros a. apply take_filter_sub.
  - intros cid Hf Hc.
    assert (filter_given filter = false) as Hg by (by destruct Hf as [-> | ->]).
    unfold get_assignments_for_admin, try_except_App, assignments_find,
      mbind, App_bind, lift, getitem.
    rewrite Hr, Hg, Hc. rewrite bool_decide_eq_true_2 by done.
    cbn [negb mongo.to_list]. unfold mongo.find.
    rewrite (List.filter_ext _
               (λ a, bool_decide (a !! "admin_id" = Some (VOid cid))))
      by (intros a; by rewrite matches_key_value).
    rewrite (assignments_view_list (assignments_collection s)); [done|done|].
    intros a. apply take_filter_sub.
Qed.

End properties.

(** ** Registration keeps the data model *)

Section invariants.
Context {L : Libs}.

Lemma usernames_snoc (c : list dict) (d : dict) (v : value) :
  d !! "username" = Some v → usernames (c ++ [d]) = (usernames c ++ [v])%list.
Proof.
  intros Hd. unfold usernames. rewrite omap_app. simpl. by rewrite Hd.
Qed.

Lemma username_not_present (u : string) (c : list dict) :
  ¬ username_present u c → VStr u ∉ usernames c.
Proof.
  intros Hno Hin. apply Hno. unfold usernames in Hin.
  apply list_elem_of_omap in Hin as (d & Hd & Hu).
  apply Exists_exists. by exists d.
Qed.

(** A successful registration, of a user or of an admin, keeps usernames
    unique and user documents well formed. *)
Lemma register_keeps_store_ok (salt : string) (oid : ObjectId)
    (user : UserCreate) (s : db) :
  unique_usernames (users_collection s) →
  users_ok (users_collection s) = true →
  ¬ username_present (username user) (users_collection s) →
  (unique_usernames (users_collection (register_user salt oid user s).2)
   ∧ users_ok (users_collection (register_user salt oid user s).2) = true)
  ∧ (unique_usernames (users_collection (register_admin salt oid user s).2)
     ∧ users_ok (users_collection (register_admin salt oid user s).2) = true).
Proof.
  intros Hnd Hok Hno. destruct (register_fresh salt oid user s Hno) as [-> ->].
  cbn [snd users_collection]. unfold unique_usernames, users_ok in *.
  rewrite !(usernames_snoc _ _ (VStr (username user))) by done.
  rewrite !forallb_app, Hok.
  pose proof (username_not_present _ _ Hno) as Hni.
  repeat split; try done.
  all: apply NoDup_app; repeat split; try done.
  all: try (intros x Hx Hx'; apply list_elem_of_singleton in Hx' as ->; done).
  all: apply NoDup_singleton.
Qed.

End invariants.

(** ** The reference instance honours the contracts *)

Lemma bits_to_pos_to_bits (p : positive) : bits_to_pos (pos_to_bits p) = Some p.
Proof. induction p as [p IH|p IH|]; simpl; by rewrite ?IH. Qed.


Lemma ref_jwt_contract : jwt_contract ref_libs.
Proof.
  intros sub e key alg now. simpl. unfold ref_jwt_encode, ref_jwt_decode.
  rewrite lookup_insert_ne, lookup_singleton_eq, lookup_insert_eq by done.
  rewrite bits_to_pos_to_bits. simpl. rewrite decode_encode.
  rewrite (bool_decide_eq_true_2 (alg ∈ [alg])) by (by left).
  rewrite bool_decide_eq_true_2 by done. simpl.
  case_bool_decide; [done|]. reflexivity.
Qed.



(** ** The services on the example store *)

Ltac by_computation := apply (bool_decide_unpack _); vm_compute; exact I.

Lemma active_check_rejects_inactive_witness :
  get_current_active_user (<["is_active" := VBool false]> bob_doc)
  = Raise (HTTPError (mkHTTPException HTTP_400_BAD_REQUEST
                        "Inactive user" []))
  ∧ get_current_active_user bob_doc = Ok bob_doc.
Proof.
  split.
  - apply (proj1 (active_check_rejects_inactive _)). reflexivity.
  - apply (proj2 (active_check_rejects_inactive _)). right. reflexivity.
Defined.

(** C1, as stated, fails: an inactive caller is turned away with status
    400, which is not 403. *)
Lemma active_check_not_forbidden :
  (<["is_active" := VBool false]> bob_doc) !! "is_active"
  = Some (VBool false)
  ∧ http_status
      (get_current_active_user (<["is_active" := VBool false]> bob_doc))
    = Some HTTP_400_BAD_REQUEST
  ∧ http_status
      (get_current_active_user (<["is_active" := VBool false]> bob_doc))
    ≠ Some HTTP_403_FORBIDDEN.
Proof.
  split; [reflexivity|]. split; [reflexivity|]. vm_compute. discriminate.
Qed.

Lemma register_taken_or_fresh_witness :
  (register_user (L := ref_libs) "salt3" (oid_of_nat 3)
     (mkUserCreate "bob" "hunter2") example_db
   = (Raise (HTTPError (mkHTTPException HTTP_400_BAD_REQUEST
                          "Username already taken" [])), example_db)
   ∧ register_admin (L := ref_libs) "salt3" (oid_of_nat 3)
       (mkUserCreate "bob" "hunter2") example_db
     = (Raise (HTTPError (mkHTTPException HTTP_400_BAD_REQUEST
                            "Username already taken" [])), example_db))
  ∧ (users_collection
       (register_user (L := ref_libs) "salt3" (oid_of_nat 3)
          (mkUserCreate "carol" "hunter2") example_db).2
     = [alice_doc; bob_doc;
        {[ "_id" := VOid (oid_of_nat 3); "username" := VStr "carol";
           "password" := VStr (ref_hash "salt3" "hunter2");
           "role" := VStr "user" ]}]).
Proof.
  split.
  - apply (proj1 (register_taken_or_fresh (L := ref_libs) "salt3"
                    (oid_of_nat 3) (mkUserCreate "bob" "hunter2")
                    example_db)).
    by_computation.
  - rewrite (proj1 (proj2 (register_taken_or_fresh (L := ref_libs) "salt3"
                             (oid_of_nat 3) (mkUserCreate "carol" "hunter2")
                             example_db) ltac:(by_computation))).
    reflexivity.
Defined.

(** C2, as stated, fails: a taken username is refused with status 400,
    which is not 409, by both variants. *)
Lemma register_taken_not_conflict :
  username_present "bob" (users_collection example_db)
  ∧ http_status (register_user (L := ref_libs) "salt3" (oid_of_nat 3)
                   (mkUserCreate "bob" "hunter2") example_db).1
    = Some HTTP_400_BAD_REQUEST
  ∧ http_status (register_user (L := ref_libs) "salt3" (oid_of_nat 3)
                   (mkUserCreate "bob" "hunter2") example_db).1
    ≠ Some HTTP_409_CONFLICT
  ∧ http_status (register_admin (L := ref_libs) "salt3" (oid_of_nat 3)
                   (mkUserCreate "bob" "hunter2") example_db).1
    = Some HTTP_400_BAD_REQUEST
  ∧ http_status (register_admin (L := ref_libs) "salt3" (oid_of_nat 3)
                   (mkUserCreate "bob" "hunter2") example_db).1
    ≠ Some HTTP_409_CONFLICT.
Proof.
  split; [by_computation|].
  split; [reflexivity|]. split; [vm_compute; discriminate|].
  split; [reflexivity|]. vm_compute. discriminate.
Qed.

Lemma registered_account_is_active_witness :
  ∃ new_doc : dict,
    dom new_doc = ({[ "username"; "password"; "role" ]} : gset string)
    ∧ users_collection
        (register_user (L := ref_libs) "salt3" (oid_of_nat 3)
           (mkUserCreate "carol" "hunter2") example_db).2
      = (users_collection example_db
         ++ [ <["_id" := VOid (oid_of_nat 3)]> new_doc ])%list
    ∧ (<["_id" := VOid (oid_of_nat 3)]> new_doc) !! "is_active" = None
    ∧ get_current_active_user (<["_id" := VOid (oid_of_nat 3)]> new_doc)
      = Ok (<["_id" := VOid (oid_of_nat 3)]> new_doc).
Proof.
  apply (proj1 (registered_account_is_active (L := ref_libs) "salt3"
                  (oid_of_nat 3) (mkUserCreate "carol" "hunter2")
                  example_db ltac:(by_computation)) false).
Defined.

Lemma invalid_token_unauthorized_witness :
  decode_access_token (L := ref_libs) 200 expired_token = Ok None
  ∧ decode_access_token (L := ref_libs) 200 forged_token = Ok None
  ∧ get_current_user (L := ref_libs) 200 forged_token example_db
    = (Raise (HTTPError (mkHTTPException HTTP_401_UNAUTHORIZED
                           "Could not validate credentials"
                           [("WWW-Authenticate", "Bearer")])), example_db)
  ∧ get_current_user (L := ref_libs) 200 expired_token example_db
    = get_current_user (L := ref_libs) 200 forged_token example_db.
Proof.
  apply (invalid_token_unauthorized (L := ref_libs) 200 expired_token
           forged_token InvalidSignatureError example_db);
    vm_compute; reflexivity.
Defined.

Lemma admin_login_only_admins_witness :
  login_admin (L := ref_libs) 1000 (mkUserCreate "bob" "builder") example_db
  = (Raise (HTTPError (mkHTTPException HTTP_401_UNAUTHORIZED
                         "Invalid username or password"
                         [("WWW-Authenticate", "Bearer")])), example_db)
  ∧ login_admin (L := ref_libs) 1000 (mkUserCreate "alice" "wonderland")
      example_db
    = (Ok {[ "id" := VStr (py_str (L := ref_libs) (VOid (oid_of_nat 1)));
             "username" := VStr "alice";
             "access_token" :=
               VStr (create_access_token (L := ref_libs) 1000
                       {[ "sub" := VStr "alice" ]}
                       (Some (timedelta_minutes 30)));
             "token_type" := VStr "bearer" ]}, example_db).
Proof.
  split.
  - apply (proj1 (proj2 (admin_login_only_admins (L := ref_libs) 1000
                           (mkUserCreate "bob" "builder") example_db))
             bob_doc);
      [by_computation | by_computation | reflexivity | reflexivity].
  - apply (proj2 (proj2 (admin_login_only_admins (L := ref_libs) 1000
                           (mkUserCreate "alice" "wonderland") example_db))
             alice_doc (VStr (ref_hash "salt1" "wonderland"))
             (VOid (oid_of_nat 1)));
      [by_computation | by_computation | reflexivity | reflexivity
      | reflexivity | reflexivity | reflexivity].
Defined.



Lemma set_status_admin_only_witness :
  update_assignment_status
    (mkAssignmentUpdate "000000000000000000000010" "accepted")
    bob_doc example_db
  = (Raise (HTTPError (mkHTTPException HTTP_403_FORBIDDEN
                         "Not authorized to accept assignments." [])),
     example_db)
  ∧ update_assignment_status
      (mkAssignmentUpdate "000000000000000000000010" "accepted")
      alice_doc example_db
    = (Ok {[ "message" := VStr "Assignment status updated successfully" ]},
       mkDb (users_collection example_db)
            (<[0%nat := <["status" := VStr "accepted"]>
                          (task_doc 10 "rejected")]>
               (assignments_collection example_db))).
Proof.
  split.
  - apply (proj1 (set_status_admin_only _ bob_doc example_db)
             (VStr "user")); [reflexivity | discriminate].
  - apply (proj2 (set_status_admin_only
                    (mkAssignmentUpdate "000000000000000000000010" "accepted")
                    alice_doc example_db)
             (oid_of_nat 10) 0%nat (task_doc 10 "rejected"));
      [reflexivity | reflexivity | reflexivity | reflexivity |].
    intros j d' Hj. lia.
Defined.

Lemma upload_requires_admin_witness :
  upload_assignment 2000 (oid_of_nat 11)
    (mkAssignmentCreate "bob-1" "essay" "bob") bob_doc example_db
  = (Raise (HTTPError (mkHTTPException HTTP_404_NOT_FOUND
                         ("Admin '" ++ "bob" ++ "' not found.") [])),
     example_db)
  ∧ upload_assignment 2000 (oid_of_nat 11)
      (mkAssignmentCreate "bob-1" "essay" "alice") bob_doc example_db
    = (Ok {[ "id" := VStr (bson.str (oid_of_nat 11));
             "message" := VStr "Assignment uploaded successfully" ]},
       mkDb (users_collection example_db)
            (assignments_collection example_db
             ++ [ <["_id" := VOid (oid_of_nat 11)]>
                    {[ "user_id" := VOid (oid_of_nat 2);
                       "userId" := VStr "bob-1";
                       "task" := VStr "essay";
                       "admin_id" := VOid (oid_of_nat 1);
                       "admin" := VStr "alice";
                       "status" := VStr "pending";
                       "timestamp" := VDate 2000 ]} ])).
Proof.
  split.
  - apply (proj1 (upload_requires_admin 2000 (oid_of_nat 11)
                    (mkAssignmentCreate "bob-1" "essay" "bob") bob_doc
                    example_db eq_refl)).
    by_computation.
  - apply (proj2 (upload_requires_admin 2000 (oid_of_nat 11)
                    (mkAssignmentCreate "bob-1" "essay" "alice") bob_doc
                    example_db eq_refl) alice_doc);
      [by_computation | by_computation | reflexivity | reflexivity
      | reflexivity | reflexivity].
Defined.

Lemma list_admins_not_found_iff_none_witness :
  get_admins (L := ref_libs) (mkDb [bob_doc] [])
  = (Raise (HTTPError (mkHTTPException HTTP_404_NOT_FOUND
                         "No admins found." [])), mkDb [bob_doc] [])
  ∧ get_admins (L := ref_libs) example_db
    = (Ok (mkAdminListResponse
             (admin_pair (L := ref_libs) <$>
                List.filter is_admin_doc (users_collection example_db))),
       example_db).
Proof.
  split.
  - apply (proj1 (list_admins_not_found_iff_none (L := ref_libs)
                    (mkDb [bob_doc] []))).
    reflexivity.
  - apply (proj2 (proj2 (list_admins_not_found_iff_none (L := ref_libs)
                           example_db)));
      [vm_compute; discriminate | reflexivity].
Defined.

Lemma list_assignments_first_hundred_witness :
  get_assignments_for_admin (L := ref_libs) alice_doc (Some "alice")
    crowded_db
  = (Ok (mkAssignmentListResponse
           (assignment_view (L := ref_libs) <$>
              take 100 (List.filter
                          (λ a, bool_decide
                                  (a !! "admin" = Some (VStr "alice")))
                          (assignments_collection crowded_db)))),
     crowded_db)
  ∧ get_assignments_for_admin (L := ref_libs) alice_doc None example_db
    = (Ok (mkAssignmentListResponse
             (assignment_view (L := ref_libs) <$>
                take 100 (List.filter
                            (λ a, bool_decide
                                    (a !! "admin_id"
                                     = Some (VOid (oid_of_nat 1))))
                            (assignments_collection example_db)))),
       example_db).
Proof.
  split.
  - apply (proj1 (list_assignments_first_hundred (L := ref_libs) alice_doc
                    (Some "alice") crowded_db eq_refl
                    ltac:(vm_compute; reflexivity)) "alice");
      [reflexivity | discriminate].
  - apply (proj2 (list_assignments_first_hundred (L := ref_libs) alice_doc
                    None example_db eq_refl eq_refl) (oid_of_nat 1));
      [by left | reflexivity].
Defined.

(** C8, as stated, fails twice: an empty filter is given and yet the
    caller's own assignments come back, none of which is addressed to an
    admin of that name; and of a hundred and one assignments of the
    caller only a hundred come back. *)
Lemma list_assignments_not_all :
  (List.filter (λ a, bool_decide (a !! "admin" = Some (VStr "")))
     (assignments_collection example_db) = []
   ∧ (get_assignments_for_admin (L := ref_libs) alice_doc (Some "")
        example_db).1
     = Ok (mkAssignmentListResponse
             [assignment_view (L := ref_libs) (task_doc 10 "rejected")]))
  ∧ (length (List.filter
               (λ a, bool_decide
                       (a !! "admin_id" = Some (VOid (oid_of_nat 1))))
               (assignments_collection crowded_db)) = 101%nat
     ∧ ∃ listed,
         (get_assignments_for_admin (L := ref_libs) alice_doc None
            crowded_db).1 = Ok (mkAssignmentListResponse listed)
         ∧ length listed = 100%nat).
Proof.
  split; [split; vm_compute; reflexivity|].
  split; [vm_compute; reflexivity|].
  eexists. split; [vm_compute; reflexivity|]. vm_compute. reflexivity.
Qed.

(** * Further properties of the services *)

Section store_effects.
Context {L : Libs}.

Lemma db_eta (s : db) : mkDb (users_collection s) (assignments_collection s) = s.
Proof. by destruct s. Qed.

Lemma update_one_unmatched (q : mongo.query) (upd : list (string * value))
    (c : list dict) :
  (mongo.update_one q upd c).1 = 0%nat → (mongo.update_one q upd c).2 = c.
Proof.
  induction c as [|d c IH]; [done|]. simpl.
  destruct (mongo.matches q d); [done|]. simpl. intros H. by rewrite IH.
Qed.

Lemma except_InvalidId_state {A} (detail : string) (e : exn) (s : db) :
  (except_InvalidId (A := A) detail e s).2 = s.
Proof. by destruct e. Qed.

(** The services that only read -- the two logins, the two listings and
    the resolution of the caller -- hand the store back as they got it,
    whether they return or raise. *)
Theorem reading_services_keep_store (now : Z) (cred : UserLogin)
    (token : string) (current_user : dict) (filter : option string)
    (s : db) :
  (login_user now cred s).2 = s
  ∧ (login_admin now cred s).2 = s
  ∧ (get_admins s).2 = s
  ∧ (get_assignments_for_admin current_user filter s).2 = s
  ∧ (get_current_user now token s).2 = s.
Proof.
  assert (∀ plain found, (login_found now plain found s).2 = s) as Hlf.
  { intros plain [d|]; [|done]. unfold login_found.
    destruct (truthy_dict d); [|done]. cbn [negb].
    unfold mbind, App_bind, lift.
    destruct (getitem d "password") as [h|]; [|done].
    destruct (verify_password plain h) as [[|]|]; try done. cbn [negb].
    destruct (getitem d "username"); [|done].
    destruct (getitem d "_id"); done. }
  split; [apply Hlf|]. split; [apply Hlf|]. split; [|split].
  - unfold get_admins, users_find, mbind, App_bind, lift.
    destruct (mongo.to_list _ _); [done|].
    destruct (mapM admin_entry _); done.
  - unfold get_assignments_for_admin, try_except_App, assignments_find,
      mbind, App_bind, lift.
    destruct (getitem current_user "role") as [r|];
      [|apply except_InvalidId_state].
    destruct (negb _); [done|].
    destruct (filter_given filter).
    + destruct (mapM assignment_entry _); [done|].
      apply except_InvalidId_state.
    + destruct (getitem current_user "_id");
        [|apply except_InvalidId_state].
      destruct (mapM assignment_entry _); [done|].
      apply except_InvalidId_state.
  - unfold get_current_user, try_except_App, users_find_one,
      mbind, App_bind, lift.
    destruct (decode_access_token now token) as [[p|]|[| | |j| |]];
      try done.
    + destruct (negb (truthy_dict p)); [done|].
      destruct (TokenData _) as [v|[| | |j| |]]; try done.
      * destruct (mongo.find_one _ _) as [u|]; [|done].
        destruct (negb (truthy_dict u)); done.
      * simpl. destruct (is_InvalidTokenError j); done.
    + simpl. destruct (is_InvalidTokenError j); done.
Qed.

(** A call that writes -- a registration, an upload, a status update --
    and ends in an error the service raises itself (status 400, 403 or
    404, or a [KeyError] on a missing field) has written nothing: the
    store is the one it was given.  Faults of the driver, which the
    services turn into status 500, are not among these errors. *)
Theorem raising_call_writes_nothing (salt : string) (oid : ObjectId)
    (user : UserCreate) (now : Z) (assignment : AssignmentCreate)
    (update : AssignmentUpdate) (current_user : dict) (s : db) :
  (∀ e, (register_user salt oid user s).1 = Raise e →
        service_error e = true →
        (register_user salt oid user s).2 = s)
  ∧ (∀ e, (register_admin salt oid user s).1 = Raise e →
          service_error e = true →
          (register_admin salt oid user s).2 = s)
  ∧ (∀ e, (upload_assignment now oid assignment current_user s).1 = Raise e →
          service_error e = true →
          (upload_assignment now oid assignment current_user s).2 = s)
  ∧ (∀ e, (update_assignment_status update current_user s).1 = Raise e →
          service_error e = true →
          (update_assignment_status update current_user s).2 = s).
Proof.
  split; [|split; [|split]]; intros e.
  - unfold register_user, users_find_one, mbind, App_bind.
    by destruct (truthy_opt _).
  - unfold register_admin, users_find_one, mbind, App_bind.
    by destruct (truthy_opt _).
  - unfold upload_assignment, try_except_App, users_find_one,
      assignments_insert_one, mbind, App_bind, lift.
    destruct (mongo.find_one _ _) as [d|];
      [|intros _ _; apply except_InvalidId_state].
    destruct (negb (truthy_dict d));
      [intros _ _; apply except_InvalidId_state|].
    destruct (getitem d "role") as [r|];
      [|intros _ _; apply except_InvalidId_state].
    destruct (negb _); [intros _ _; apply except_InvalidId_state|].
    destruct (getitem current_user "_id");
      [|intros _ _; apply except_InvalidId_state].
    destruct (getitem d "_id");
      [done | intros _ _; apply except_InvalidId_state].
  - unfold update_assignment_status, try_except_App,
      assignments_update_one, mbind, App_bind, lift.
    destruct (getitem current_user "role") as [r|];
      [|intros _ _; apply except_InvalidId_state].
    destruct (negb _); [intros _ _; apply except_InvalidId_state|].
    destruct (ObjectId_of_str _) as [o|];
      [|intros _ _; apply except_InvalidId_state].
    cbv zeta. case_bool_decide as Hm; [|done].
    intros _ _. cbn. rewrite update_one_unmatched by done. apply db_eta.
Qed.

End store_effects.

Section tokens.
Context {L : Libs}.

(** A missing lifetime and a lifetime of zero both fall back on the
    configured default: the token is the one signed with [exp] at the
    issue time plus [ACCESS_TOKEN_EXPIRE_MINUTES] minutes.  So, with a
    codec that honours its contract and a positive default, a token asked
    for with a zero lifetime is accepted at the very moment of issue. *)
Theorem zero_lifetime_means_default (now : Z) (sub : string) :
  create_access_token now {[ "sub" := VStr sub ]} (Some 0%Z)
  = create_access_token now {[ "sub" := VStr sub ]} None
  ∧ create_access_token now {[ "sub" := VStr sub ]} None
    = jwt_encode (<["exp" := VDate (now + 60 * ACCESS_TOKEN_EXPIRE_MINUTES)]>
                    {[ "sub" := VStr sub ]}) SECRET_KEY ALGORITHM
  ∧ (jwt_contract L → (0 < ACCESS_TOKEN_EXPIRE_MINUTES)%Z →
     decode_access_token now
       (create_access_token now {[ "sub" := VStr sub ]} (Some 0%Z))
     = Ok (Some (<["exp" := VInt (now + 60 * ACCESS_TOKEN_EXPIRE_MINUTES)]>
                   {[ "sub" := VStr sub ]}))).
Proof.
  split; [done|]. split; [done|]. intros Hjwt Hpos.
  unfold decode_access_token, create_access_token.
  cbn [timedelta_or]. rewrite bool_decide_eq_true_2 by done.
  unfold timedelta_minutes. rewrite Hjwt.
  by rewrite bool_decide_eq_false_2 by lia.
Qed.

(** [decode_access_token] returns the payload exactly when [jwt.decode]
    does, returns [None] exactly when [jwt.decode] raises an
    [InvalidTokenError], and raises only what [jwt.decode] raises outside
    that class, unchanged. *)
Theorem decode_access_token_outcomes (now : Z) (token : string) :
  (∀ payload,
     decode_access_token now token = Ok (Some payload)
     ↔ jwt_decode token SECRET_KEY [ALGORITHM] now = inr payload)
  ∧ (decode_access_token now token = Ok None
     ↔ ∃ j, jwt_decode token SECRET_KEY [ALGORITHM] now = inl j
            ∧ is_InvalidTokenError j = true)
  ∧ (∀ e,
       decode_access_token now token = Raise e
       ↔ ∃ j, jwt_decode token SECRET_KEY [ALGORITHM] now = inl j
              ∧ is_InvalidTokenError j = false ∧ e = JwtError j).
Proof.
  unfold decode_access_token.
  destruct (jwt_decode token SECRET_KEY [ALGORITHM] now) as [j|p]; simpl.
  - split; [|split].
    + intros payload. split; [|done]. by destruct j.
    + split.
      * intros H. exists j. by destruct j.
      * intros (j' & [= <-] & Hj). by destruct j.
    + intros e. split.
      * intros H. exists j. destruct j; simpl in H; by simplify_eq.
      * intros (j' & [= <-] & Hj & ->). by destruct j.
  - split; [|split].
    + intros payload. split; congruence.
    + split; [done|]. by intros (j & [=] & _).
    + intros e. split; [done|]. by intros (j & [=] & _).
Qed.

Lemma get_current_user_lookup (now : Z) (token : string) (payload : dict)
    (sub : string) (s : db) :
  jwt_decode token SECRET_KEY [ALGORITHM] now = inr payload →
  payload !! "sub" = Some (VStr sub) →
  TokenData (VStr sub) = Ok (VStr sub) →
  get_current_user now token s
  = match mongo.find_one [("username", VStr sub)] (users_collection s) with
    | Some u => if negb (truthy_dict u)
                then (Raise (HTTPError credentials_exception), s)
                else (Ok u, s)
    | None => (Raise (HTTPError credentials_exception), s)
    end.
Proof.
  intros Hdec Hsub Htd.
  unfold get_current_user, try_except_App, users_find_one, mbind,
    App_bind, lift, decode_access_token.
  rewrite Hdec. simpl. rewrite (truthy_dict_lookup payload _ _ Hsub).
  cbn [negb]. unfold dict_get. rewrite Hsub. simpl. rewrite Htd.
  destruct (mongo.find_one _ _) as [u|]; [|done].
  by destruct (negb (truthy_dict u)).
Qed.

(** A token that decodes to a payload naming a stored username resolves
    to the stored document of that user -- the whole document, role and
    active flag included -- and, when no stored user carries the name,
    to the 401 credentials error. *)
Theorem get_current_user_by_subject (now : Z) (token : string)
    (payload : dict) (sub : string) (s : db) :
  jwt_decode token SECRET_KEY [ALGORITHM] now = inr payload →
  payload !! "sub" = Some (VStr sub) →
  TokenData (VStr sub) = Ok (VStr sub) →
  (∀ d, unique_usernames (users_collection s) →
        d ∈ users_collection s →
        d !! "username" = Some (VStr sub) →
        get_current_user now token s = (Ok d, s))
  ∧ (¬ username_present sub (users_collection s) →
     get_current_user now token s
     = (Raise (HTTPError credentials_exception), s)).
Proof.
  intros Hdec Hsub Htd.
  rewrite (get_current_user_lookup now token payload sub s) by done.
  split.
  - intros d Hnd Hin Hu. rewrite (find_one_username_unique _ d) by done.
    by rewrite (truthy_dict_lookup d _ _ Hu).
  - intros Hno. by rewrite register_lookup_free.
Qed.

(** A token whose payload has no [sub] claim is looked up under the
    username [None]; when [TokenData] lets [None] through and every stored
    user has a username, nothing matches and the caller gets the 401
    credentials error.  An empty payload is refused before any lookup. *)
Theorem get_current_user_without_subject (now : Z) (token : string)
    (payload : dict) (s : db) :
  jwt_decode token SECRET_KEY [ALGORITHM] now = inr payload →
  payload !! "sub" = None →
  (payload = ∅ →
   get_current_user now token s
   = (Raise (HTTPError credentials_exception), s))
  ∧ (TokenData VNone = Ok VNone →
     users_ok (users_collection s) = true →
     get_current_user now token s
     = (Raise (HTTPError credentials_exception), s)).
Proof.
  intros Hdec Hsub. split.
  - intros ->.
    unfold get_current_user, try_except_App, mbind, App_bind, lift,
      decode_access_token.
    by rewrite Hdec.
  - intros Htd Hok.
    unfold get_current_user, try_except_App, users_find_one, mbind,
      App_bind, lift, decode_access_token.
    rewrite Hdec. simpl. destruct (negb (truthy_dict payload)); [done|].
    unfold dict_get. rewrite Hsub. simpl. rewrite Htd.
    assert (mongo.find_one [("username", VNone)] (users_collection s)
            = None) as ->; [|done].
    apply find_one_None, Forall_forall. intros d Hin.
    destruct (user_doc_ok_fields d (users_ok_elem _ _ Hok Hin))
      as (o & u & h & r & _ & Hu & _ & _).
    unfold mongo.matches, mongo.field_matches. simpl. by rewrite Hu.
Qed.

End tokens.

Section accounts.
Context {L : Libs}.


Lemma find_one_admin_absent (u : string) (c : list dict) :
  ¬ username_present u c →
  mongo.find_one [("username", VStr u); ("role", VStr "admin")] c = None.
Proof.
  intros Hno. apply find_one_None, Forall_forall. intros d Hin.
  destruct (mongo.matches _ d) eqn:Hm; [|done].
  apply matches_username_role in Hm as [Hu _].
  destruct Hno. apply Exists_exists. by exists d.
Qed.

Lemma filter_username_absent (u : string) (c : list dict) :
  ¬ username_present u c →
  List.filter (λ d, bool_decide (d !! "username" = Some (VStr u))) c = [].
Proof.
  intros Hno. induction c as [|d c IH]; [done|]. simpl.
  rewrite bool_decide_eq_false_2.
  - apply IH. intros H. apply Hno. by apply Exists_cons_tl.
  - intros H. apply Hno. by apply Exists_cons_hd.
Qed.

(** Login under a username that no stored account carries fails with the
    same 401 "Invalid username or password" error as a wrong password
    does, in the user and in the admin variant. *)
Theorem login_unknown_username (now : Z) (cred : UserLogin) (s : db) :
  ¬ username_present (username cred) (users_collection s) →
  login_user now cred s
  = (Raise (HTTPError (mkHTTPException HTTP_401_UNAUTHORIZED
                         "Invalid username or password"
                         [("WWW-Authenticate", "Bearer")])), s)
  ∧ login_admin now cred s
    = (Raise (HTTPError (mkHTTPException HTTP_401_UNAUTHORIZED
                           "Invalid username or password"
                           [("WWW-Authenticate", "Bearer")])), s).
Proof.
  intros Hno. unfold login_user, login_admin, users_find_one, mbind, App_bind.
  by rewrite register_lookup_free, find_one_admin_absent.
Qed.

(** The user login does not look at the role: with usernames unique, on
    the username of a stored admin it answers exactly as the admin login
    does, whatever the password. *)
Theorem login_user_serves_admins (now : Z) (cred : UserLogin) (s : db)
    (d : dict) :
  unique_usernames (users_collection s) →
  d ∈ users_collection s →
  d !! "username" = Some (VStr (username cred)) →
  d !! "role" = Some (VStr "admin") →
  login_user now cred s = login_admin now cred s.
Proof.
  intros Hnd Hin Hu Hr.
  unfold login_user, login_admin, users_find_one, mbind, App_bind.
  rewrite (find_one_username_unique _ d) by done.
  rewrite (find_one_admin_unique _ d) by done.
  unfold is_admin_doc. by rewrite bool_decide_eq_true_2.
Qed.


(** After a username has been registered, a second registration under it
    -- as user or as admin, with any password -- fails with status 400
    and leaves the store alone, so the store holds exactly one document
    with that username. *)
Theorem register_twice (salt salt' : string) (oid oid' : ObjectId)
    (user again : UserCreate) (s : db) :
  ¬ username_present (username user) (users_collection s) →
  username again = username user →
  let s1 := (register_user salt oid user s).2 in
  register_user salt' oid' again s1 = (Raise username_taken, s1)
  ∧ register_admin salt' oid' again s1 = (Raise username_taken, s1)
  ∧ length (List.filter
              (λ d, bool_decide
                      (d !! "username" = Some (VStr (username user))))
              (users_collection s1)) = 1%nat.
Proof.
  intros Hno Heq s1. unfold s1.
  destruct (register_fresh salt oid user s Hno) as [-> _]. cbn [snd].
  set (du := <["_id" := VOid oid]> _).
  set (s2 := mkDb (users_collection s ++ [du]) (assignments_collection s)).
  assert (username_present (username again) (users_collection s2)) as Hp.
  { rewrite Heq. apply Exists_app. right. by apply Exists_cons_hd. }
  destruct (register_taken salt' oid' again s2 Hp) as [H1 H2].
  split; [exact H1|]. split; [exact H2|].
  unfold s2. cbn [users_collection]. rewrite List.filter_app.
  rewrite filter_username_absent by done.
  unfold du. cbn [List.filter app].
  rewrite bool_decide_eq_true_2 by done. reflexivity.
Qed.


End accounts.

Section assignment_flow.
Context {L : Libs}.

Lemma update_one_no_match (q : mongo.query) (upd : list (string * value))
    (c : list dict) :
  Forall (λ d, mongo.matches q d = false) c →
  mongo.update_one q upd c = (0%nat, c).
Proof.
  induction 1 as [|d c Hd _ IH]; [done|]. simpl. by rewrite Hd, IH.
Qed.

Lemma set_status_stored (update : AssignmentUpdate) (current_user : dict)
    (s : db) (o : ObjectId) (i : nat) (d : dict) :
  current_user !! "role" = Some (VStr "admin") →
  bson.parse (assignment_id update) = Some o →
  assignments_collection s !! i = Some d →
  d !! "_id" = Some (VOid o) →
  (∀ j d', (j < i)%nat → assignments_collection s !! j = Some d' →
           d' !! "_id" ≠ Some (VOid o)) →
  update_assignment_status update current_user s
  = (Ok {[ "message" := VStr "Assignment status updated successfully" ]},
     mkDb (users_collection s)
          (<[i := <["status" := VStr (status update)]> d]>
             (assignments_collection s))).
Proof.
  intros Hr Ho Hi Hid Hfirst.
  unfold update_assignment_status, try_except_App, mbind, App_bind, lift,
    getitem, ObjectId_of_str, assignments_update_one.
  rewrite Hr, Ho. cbn [negb bool_decide decide_rel].
  rewrite bool_decide_eq_true_2 by done. cbn [negb].
  rewrite (update_one_first _ _ _ i d); [done | done | |].
  - rewrite matches_key_value by done. by apply bool_decide_eq_true_2.
  - intros j d' Hj Hd'. rewrite matches_key_value by done.
    apply bool_decide_eq_false_2. by eapply Hfirst.
Qed.

Lemma foreign_char_not_hex (s : string) :
  has_foreign_char s = true → bson.all_hex s = false.
Proof.
  induction s as [|a s IH]; [done|]. simpl.
  destruct (bson.is_hex_digit a); simpl; [|done].
  intros H. by rewrite IH.
Qed.

Lemma parse_refuses (s : string) :
  String.length s ≠ 24%nat ∨ has_foreign_char s = true →
  bson.parse s = None.
Proof.
  unfold bson.parse. intros [Hlen | Hforeign].
  - apply Nat.eqb_neq in Hlen. by rewrite Hlen.
  - by rewrite (foreign_char_not_hex s Hforeign), andb_false_r.
Qed.

(** For an admin caller, an identifier that is not twenty-four characters
    long, or that holds a character that is neither a hexadecimal digit
    nor ASCII whitespace, is refused with status 400 "Invalid assignment
    ID.", and an identifier of twenty-four hexadecimal digits that no
    stored assignment carries with status 404 "Assignment not found.";
    the store is unchanged in both cases. *)
Theorem set_status_bad_or_unknown_id (update : AssignmentUpdate)
    (current_user : dict) (s : db) :
  current_user !! "role" = Some (VStr "admin") →
  (String.length (assignment_id update) ≠ 24%nat
   ∨ has_foreign_char (assignment_id update) = true →
   update_assignment_status update current_user s
   = (Raise (HTTPError (mkHTTPException HTTP_400_BAD_REQUEST
                          "Invalid assignment ID." [])), s))
  ∧ (∀ o, bson.parse (assignment_id update) = Some o →
          Forall (λ d, d !! "_id" ≠ Some (VOid o))
            (assignments_collection s) →
          update_assignment_status update current_user s
          = (Raise (HTTPError (mkHTTPException HTTP_404_NOT_FOUND
                                 "Assignment not found." [])), s)).
Proof.
  intros Hr.
  unfold update_assignment_status, try_except_App, mbind, App_bind, lift,
    getitem, ObjectId_of_str, assignments_update_one.
  rewrite Hr. rewrite bool_decide_eq_true_2 by done. cbn [negb].
  split.
  - intros Hbad. by rewrite (parse_refuses _ Hbad).
  - intros o -> Hnone. rewrite update_one_no_match.
    + cbn. by rewrite db_eta.
    + eapply Forall_impl; [exact Hnone|]. intros d Hd.
      rewrite matches_key_value by done. by apply bool_decide_eq_false_2.
Qed.

(** No status is final: when two admins set the status of one stored
    assignment one after the other, the store ends as if only the second
    update had been made, whatever the first one wrote. *)
Theorem set_status_last_writer_wins (id st1 st2 : string)
    (admin1 admin2 : dict) (s : db) (o : ObjectId) (i : nat) (d : dict) :
  admin1 !! "role" = Some (VStr "admin") →
  admin2 !! "role" = Some (VStr "admin") →
  bson.parse id = Some o →
  assignments_collection s !! i = Some d →
  d !! "_id" = Some (VOid o) →
  (∀ j d', (j < i)%nat → assignments_collection s !! j = Some d' →
           d' !! "_id" ≠ Some (VOid o)) →
  update_assignment_status (mkAssignmentUpdate id st2) admin2
    (update_assignment_status (mkAssignmentUpdate id st1) admin1 s).2
  = update_assignment_status (mkAssignmentUpdate id st2) admin2 s.
Proof.
  intros Hr1 Hr2 Ho Hi Hid Hfirst.
  rewrite (set_status_stored (mkAssignmentUpdate id st1) admin1 s o i d)
    by done.
  rewrite (set_status_stored (mkAssignmentUpdate id st2) admin2 s o i d)
    by done.
  cbn [snd status].
  assert (i < length (assignments_collection s))%nat as Hlt
    by by eapply lookup_lt_Some.
  rewrite (set_status_stored (mkAssignmentUpdate id st2) admin2 _ o i
             (<["status" := VStr st1]> d)); cbn [assignment_id status
             users_collection assignments_collection]; try done.
  - by rewrite list_insert_insert_eq, insert_insert_eq.
  - by apply list_lookup_insert_eq.
  - by rewrite lookup_insert_ne.
  - intros j d' Hj. rewrite list_lookup_insert_ne by lia. by apply Hfirst.
Qed.

Lemma list_unfiltered (current_user : dict) (cid : ObjectId) (s : db) :
  current_user !! "role" = Some (VStr "admin") →
  current_user !! "_id" = Some (VOid cid) →
  assignments_ok (assignments_collection s) = true →
  get_assignments_for_admin current_user None s
  = (Ok (mkAssignmentListResponse
           (assignment_view <$>
              take 100 (List.filter
                          (λ a, bool_decide
                                  (a !! "admin_id" = Some (VOid cid)))
                          (assignments_collection s)))), s).
Proof.
  intros Hr Hc Hok.
  unfold get_assignments_for_admin, try_except_App, assignments_find,
    mbind, App_bind, lift, getitem.
  rewrite Hr, Hc. rewrite bool_decide_eq_true_2 by done.
  cbn [negb filter_given mongo.to_list]. unfold mongo.find.
  rewrite (List.filter_ext _
             (λ a, bool_decide (a !! "admin_id" = Some (VOid cid))))
    by (intros a; by rewrite matches_key_value).
  rewrite (assignments_view_list (assignments_collection s)); [done|done|].
  intros a. apply take_filter_sub.
Qed.

(** After an upload naming a stored admin, that admin's unfiltered
    listing ends with the new assignment, status ["pending"], as long as
    fewer than a hundred assignments were addressed to the admin before;
    from a hundred on, the listing does not show the new assignment at
    all.  The unfiltered listing of every other admin is what it was. *)
Theorem upload_then_listed (now : Z) (oid : ObjectId)
    (assignment : AssignmentCreate) (current_user a : dict)
    (caller_id : value) (aid : ObjectId) (s : db) :
  unique_usernames (users_collection s) →
  a ∈ users_collection s →
  a !! "username" = Some (VStr (admin assignment)) →
  a !! "role" = Some (VStr "admin") →
  a !! "_id" = Some (VOid aid) →
  current_user !! "_id" = Some caller_id →
  assignments_ok (assignments_collection s) = true →
  let s1 := (upload_assignment now oid assignment current_user s).2 in
  let addressed :=
    List.filter (λ d, bool_decide (d !! "admin_id" = Some (VOid aid)))
      (assignments_collection s) in
  let new : dict :=
    {[ "_id" := VOid oid;
       "user_id" := caller_id;
       "userId" := VStr (userId assignment);
       "task" := VStr (task assignment);
       "admin_id" := VOid aid;
       "admin" := VStr (admin assignment);
       "status" := VStr "pending";
       "timestamp" := VDate now ]} in
  ((length addressed < 100)%nat →
   (get_assignments_for_admin a None s1).1
   = Ok (mkAssignmentListResponse
           (assignment_view <$> (addressed ++ [new])%list)))
  ∧ ((100 ≤ length addressed)%nat →
     (get_assignments_for_admin a None s1).1
     = (get_assignments_for_admin a None s).1)
  ∧ (∀ b bid, b !! "role" = Some (VStr "admin") →
              b !! "_id" = Some (VOid bid) → bid ≠ aid →
              (get_assignments_for_admin b None s1).1
              = (get_assignments_for_admin b None s).1).
Proof.
  intros Hnd Hin Hu Hr Hi Hc Hok s1 addressed new.
  assert (s1 = mkDb (users_collection s)
                    (assignments_collection s ++ [new])) as ->.
  { unfold s1, upload_assignment, try_except_App, users_find_one,
      assignments_insert_one, mbind, App_bind, lift.
    rewrite (find_one_username_unique _ a _ Hnd Hin Hu).
    rewrite (truthy_dict_lookup a _ _ Hu). cbn [negb].
    unfold getitem. rewrite Hr, Hi, Hc.
    by rewrite bool_decide_eq_true_2. }
  assert (assignments_ok (assignments_collection s ++ [new]) = true)
    as Hok1.
  { unfold assignments_ok in *. rewrite forallb_app, Hok. reflexivity. }
  assert (∀ cid, List.filter
                   (λ d, bool_decide (d !! "admin_id" = Some (VOid cid)))
                   (assignments_collection s ++ [new])
                 = (List.filter
                      (λ d, bool_decide (d !! "admin_id" = Some (VOid cid)))
                      (assignments_collection s)
                    ++ if bool_decide (aid = cid) then [new] else [])%list)
    as Hflt.
  { intros cid. rewrite List.filter_app. f_equal. cbn [List.filter].
    assert (new !! "admin_id" = Some (VOid aid)) as -> by done.
    destruct (decide (aid = cid)) as [->|Hne].
    - by rewrite !bool_decide_eq_true_2.
    - rewrite !bool_decide_eq_false_2; [done | done |]. congruence. }
  split; [|split].
  - intros Hlt. rewrite (list_unfiltered a aid) by done. cbn [fst].
    cbn [assignments_collection]. rewrite Hflt.
    rewrite bool_decide_eq_true_2 by done.
    rewrite take_ge; [done|]. rewrite length_app. simpl.
    fold addressed. lia.
  - intros Hge. rewrite !(list_unfiltered a aid) by done. cbn [fst].
    cbn [assignments_collection]. rewrite Hflt.
    rewrite bool_decide_eq_true_2 by done.
    by rewrite take_app_le.
  - intros b bid Hbr Hbi Hne. rewrite !(list_unfiltered b bid) by done.
    cbn [fst assignments_collection]. rewrite Hflt.
    rewrite bool_decide_eq_false_2 by congruence. by rewrite app_nil_r.
Qed.

(** A caller whose role is not ["admin"] cannot list assignments: with
    or without a filter the answer is status 403 "Not authorized to
    admin". *)
Theorem listing_requires_admin (current_user : dict) (role : value)
    (filter : option string) (s : db) :
  current_user !! "role" = Some role → role ≠ VStr "admin" →
  get_assignments_for_admin current_user filter s
  = (Raise (HTTPError (mkHTTPException HTTP_403_FORBIDDEN
                         "Not authorized to admin" [])), s).
Proof.
  intros Hr Hne.
  unfold get_assignments_for_admin, try_except_App, mbind, App_bind, lift,
    getitem.
  rewrite Hr. by rewrite bool_decide_eq_false_2.
Qed.

Lemma update_one_status_ok (q : mongo.query) (st : string) (c : list dict) :
  assignments_ok c = true →
  assignments_ok (mongo.update_one q [("status", VStr st)] c).2 = true
  ∧ length (mongo.update_one q [("status", VStr st)] c).2 = length c.
Proof.
  unfold assignments_ok. induction c as [|d c IH]; [done|].
  cbn [forallb]. rewrite andb_true_iff. intros [Hd Hc]. simpl.
  destruct (mongo.matches q d).
  - cbn [snd forallb length]. rewrite Hc, andb_true_r. split; [|done].
    unfold mongo.set_fields. cbn [foldl fst snd].
    unfold assignment_doc_ok in *. rewrite !andb_true_iff in Hd.
    destruct Hd as [[[[[H1 H2] H3] H4] _] H6].
    rewrite lookup_insert_eq, !lookup_insert_ne by done.
    by rewrite H1, H2, H3, H4, H6.
  - cbn [snd forallb length]. destruct (IH Hc) as [-> ->].
    by rewrite Hd.
Qed.

(** Uploads and status updates, whether they return or raise, keep every
    stored assignment well formed, never touch the user collection, and a
    status update never changes how many assignments are stored. *)
Theorem assignment_writes_keep_store_ok (now : Z) (oid : ObjectId)
    (assignment : AssignmentCreate) (update : AssignmentUpdate)
    (current_user : dict) (s : db) :
  assignments_ok (assignments_collection s) = true →
  let s1 := (upload_assignment now oid assignment current_user s).2 in
  let s2 := (update_assignment_status update current_user s).2 in
  assignments_ok (assignments_collection s1) = true
  ∧ users_collection s1 = users_collection s
  ∧ assignments_ok (assignments_collection s2) = true
  ∧ users_collection s2 = users_collection s
  ∧ length (assignments_collection s2) = length (assignments_collection s).
Proof.
  intros Hok s1 s2.
  assert (s1 = s
          ∨ ∃ uid aid,
              s1 = mkDb (users_collection s)
                     (assignments_collection s
                      ++ [ <["_id" := VOid oid]>
                             {[ "user_id" := uid;
                                "userId" := VStr (userId assignment);
                                "task" := VStr (task assignment);
                                "admin_id" := aid;
                                "admin" := VStr (admin assignment);
                                "status" := VStr "pending";
                                "timestamp" := VDate now ]} ])) as Hs1.
  { unfold s1, upload_assignment, try_except_App, users_find_one,
      assignments_insert_one, mbind, App_bind, lift.
    destruct (mongo.find_one _ _) as [d|];
      [|left; apply except_InvalidId_state].
    destruct (negb (truthy_dict d)); [left; apply except_InvalidId_state|].
    destruct (getitem d "role") as [r|];
      [|left; apply except_InvalidId_state].
    destruct (negb _); [left; apply except_InvalidId_state|].
    destruct (getitem current_user "_id") as [uid|];
      [|left; apply except_InvalidId_state].
    destruct (getitem d "_id") as [aid|];
      [|left; apply except_InvalidId_state].
    right. by exists uid, aid. }
  assert (s2 = s
          ∨ ∃ q, s2 = mkDb (users_collection s)
                        (mongo.update_one q
                           [("status", VStr (status update))]
                           (assignments_collection s)).2) as Hs2.
  { unfold s2, update_assignment_status, try_except_App,
      assignments_update_one, mbind, App_bind, lift.
    destruct (getitem current_user "role") as [r|];
      [|left; apply except_InvalidId_state].
    destruct (negb _); [left; apply except_InvalidId_state|].
    destruct (ObjectId_of_str _) as [o|];
      [|left; apply except_InvalidId_state].
    right. eexists. cbv zeta. by case_bool_decide. }
  split; [|split; [|split; [|split]]].
  - destruct Hs1 as [-> | (uid & aid & ->)]; [done|].
    cbn [assignments_collection]. unfold assignments_ok in *.
    rewrite forallb_app, Hok. reflexivity.
  - by destruct Hs1 as [-> | (uid & aid & ->)].
  - destruct Hs2 as [-> | [q ->]]; [done|]. cbn [assignments_collection].
    by apply update_one_status_ok.
  - by destruct Hs2 as [-> | [q ->]].
  - destruct Hs2 as [-> | [q ->]]; [done|]. cbn [assignments_collection].
    by apply update_one_status_ok.
Qed.

End assignment_flow.

Section routes.
Context {L : Libs}.

Lemma get_current_user_on_users (clock : Z) (token : string) (s s' : db) :
  users_collection s = users_collection s' →
  get_current_user clock token s'
  = ((get_current_user clock token s).1, s').
Proof.
  destruct s as [u a], s' as [u' a']. cbn [users_collection].
  intros <-.
  unfold get_current_user, try_except_App, users_find_one,
    mbind, App_bind, lift.
  cbn [users_collection].
  destruct (decode_access_token clock token) as [[p|]|[| | |j| |]];
    try done.
  - destruct (negb (truthy_dict p)); [done|].
    destruct (TokenData _) as [v|[| | |j| |]]; try done.
    + destruct (mongo.find_one _ _) as [x|]; [|done].
      by destruct (negb (truthy_dict x)).
    + simpl. by destruct (is_InvalidTokenError j).
  - simpl. by destruct (is_InvalidTokenError j).
Qed.

Lemma current_active_user_resolved (clock : Z) (token : string) (d : dict)
    (s : db) :
  get_current_user clock token s = (Ok d, s) →
  current_active_user clock token s = (get_current_active_user d, s).
Proof.
  intros H. unfold current_active_user, mbind, App_bind, lift.
  by rewrite H.
Qed.

Lemma get_current_user_invalid (clock : Z) (token : string) (j : jwt_exn)
    (s : db) :
  jwt_decode token SECRET_KEY [ALGORITHM] clock = inl j →
  is_InvalidTokenError j = true →
  get_current_user clock token s
  = (Raise (HTTPError credentials_exception), s).
Proof.
  intros Hj Hi.
  unfold get_current_user, try_except_App, mbind, App_bind, lift,
    decode_access_token.
  rewrite Hj. simpl. by destruct j.
Qed.

(** Every route behind the bearer token answers a token that [jwt.decode]
    refuses with the 401 credentials error and leaves the store alone;
    no service body runs. *)
Theorem routes_refuse_invalid_token (clock : Z) (token : string)
    (j : jwt_exn) (now : Z) (oid : ObjectId)
    (assignment : AssignmentCreate) (filter : option string) (id : string)
    (s : db) :
  jwt_decode token SECRET_KEY [ALGORITHM] clock = inl j →
  is_InvalidTokenError j = true →
  upload_assignment_endpoint clock token now oid assignment s
  = (Raise (HTTPError credentials_exception), s)
  ∧ get_admins_endpoint clock token s
    = (Raise (HTTPError credentials_exception), s)
  ∧ get_assignments_endpoint clock token filter s
    = (Raise (HTTPError credentials_exception), s)
  ∧ accept_assignment_endpoint clock token id s
    = (Raise (HTTPError credentials_exception), s)
  ∧ reject_assignment_endpoint clock token id s
    = (Raise (HTTPError credentials_exception), s).
Proof.
  intros Hj Hi.
  pose proof (get_current_user_invalid clock token j s Hj Hi) as H.
  unfold upload_assignment_endpoint, get_admins_endpoint,
    get_assignments_endpoint, accept_assignment_endpoint,
    reject_assignment_endpoint, current_active_user, mbind, App_bind.
  by rewrite H.
Qed.

(** A token that resolves to an account whose [is_active] flag is false
    is turned away by every such route with status 400 "Inactive user",
    an admin's token too, and the store is left alone. *)
Theorem routes_refuse_inactive (clock : Z) (token : string) (d : dict)
    (now : Z) (oid : ObjectId) (assignment : AssignmentCreate)
    (filter : option string) (id : string) (s : db) :
  get_current_user clock token s = (Ok d, s) →
  d !! "is_active" = Some (VBool false) →
  let inactive :=
    HTTPError (mkHTTPException HTTP_400_BAD_REQUEST "Inactive user" []) in
  upload_assignment_endpoint clock token now oid assignment s
  = (Raise inactive, s)
  ∧ get_admins_endpoint clock token s = (Raise inactive, s)
  ∧ get_assignments_endpoint clock token filter s = (Raise inactive, s)
  ∧ accept_assignment_endpoint clock token id s = (Raise inactive, s)
  ∧ reject_assignment_endpoint clock token id s = (Raise inactive, s).
Proof.
  intros H Hd inactive.
  pose proof (current_active_user_resolved clock token d s H) as Hc.
  unfold get_current_active_user, dict_get in Hc. rewrite Hd in Hc.
  simpl in Hc.
  unfold upload_assignment_endpoint, get_admins_endpoint,
    get_assignments_endpoint, accept_assignment_endpoint,
    reject_assignment_endpoint, mbind, App_bind.
  by rewrite Hc.
Qed.

(** For a token that resolves to an active account: the user routes run
    their service with that account whatever its role, and the admin
    routes answer an account whose role is not ["admin"] with status 403,
    the store left alone. *)
Theorem routes_check_role (clock : Z) (token : string) (d : dict)
    (now : Z) (oid : ObjectId) (assignment : AssignmentCreate)
    (filter : option string) (id : string) (s : db) :
  get_current_user clock token s = (Ok d, s) →
  d !! "is_active" = None ∨ d !! "is_active" = Some (VBool true) →
  (upload_assignment_endpoint clock token now oid assignment s
   = upload_assignment now oid assignment d s
   ∧ get_admins_endpoint clock token s = get_admins s)
  ∧ (∀ role, d !! "role" = Some role → role ≠ VStr "admin" →
       get_assignments_endpoint clock token filter s
       = (Raise (not_admin "Not authorized to admin"), s)
       ∧ accept_assignment_endpoint clock token id s
         = (Raise (not_admin "Not authorized to accept assignments."), s)
       ∧ reject_assignment_endpoint clock token id s
         = (Raise (not_admin "Not authorized to accept assignments."), s)).
Proof.
  intros H Hact.
  pose proof (current_active_user_resolved clock token d s H) as Hc.
  assert (get_current_active_user d = Ok d) as Hd.
  { unfold get_current_active_user, dict_get. by destruct Hact as [-> | ->]. }
  rewrite Hd in Hc.
  unfold upload_assignment_endpoint, get_admins_endpoint,
    get_assignments_endpoint, accept_assignment_endpoint,
    reject_assignment_endpoint, mbind at 1, App_bind at 1.
  unfold mbind at 1, App_bind at 1. unfold mbind at 1, App_bind at 1.
  unfold mbind at 1, App_bind at 1. unfold mbind at 1, App_bind at 1.
  rewrite Hc. split; [done|]. intros role Hr Hne.
  unfold get_assignments_for_admin, update_assignment_status,
    try_except_App, mbind, App_bind, lift, getitem.
  rewrite Hr. by rewrite bool_decide_eq_false_2.
Qed.

(** Nothing guards the order of decisions: with an active admin's token,
    accepting a stored assignment writes ["accepted"], rejecting it
    afterwards writes ["rejected"] over it, and accepting it once more
    writes ["accepted"] again. *)
Theorem accept_then_reject (clock : Z) (token : string) (d : dict)
    (id : string) (o : ObjectId) (i : nat) (a : dict) (s : db) :
  get_current_user clock token s = (Ok d, s) →
  d !! "is_active" = None ∨ d !! "is_active" = Some (VBool true) →
  d !! "role" = Some (VStr "admin") →
  bson.parse id = Some o →
  assignments_collection s !! i = Some a →
  a !! "_id" = Some (VOid o) →
  (∀ j a', (j < i)%nat → assignments_collection s !! j = Some a' →
           a' !! "_id" ≠ Some (VOid o)) →
  let with_status (st : string) :=
    mkDb (users_collection s)
         (<[i := <["status" := VStr st]> a]> (assignments_collection s)) in
  let updated : dict :=
    {[ "message" := VStr "Assignment status updated successfully" ]} in
  accept_assignment_endpoint clock token id s
  = (Ok updated, with_status "accepted")
  ∧ reject_assignment_endpoint clock token id (with_status "accepted")
    = (Ok updated, with_status "rejected")
  ∧ accept_assignment_endpoint clock token id (with_status "rejected")
    = (Ok updated, with_status "accepted").
Proof.
  intros H Hact Hr Ho Hi Hid Hfirst with_status updated.
  assert (get_current_active_user d = Ok d) as Hd.
  { unfold get_current_active_user, dict_get. by destruct Hact as [-> | ->]. }
  assert (∀ st, current_active_user clock token (with_status st)
                = (Ok d, with_status st)) as Hc.
  { intros st. unfold current_active_user, mbind, App_bind, lift.
    rewrite (get_current_user_on_users clock token s (with_status st))
      by done.
    rewrite H. cbn [fst]. by rewrite Hd. }
  assert (i < length (assignments_collection s))%nat as Hlt
    by by eapply lookup_lt_Some.
  assert (∀ st st',
            update_assignment_status (mkAssignmentUpdate id st') d
              (with_status st) = (Ok updated, with_status st')) as Hupd.
  { intros st st'.
    rewrite (set_status_stored _ d (with_status st) o i
               (<["status" := VStr st]> a));
      cbn [assignment_id status with_status users_collection
           assignments_collection]; try done.
    - unfold with_status. cbn [users_collection assignments_collection].
      by rewrite list_insert_insert_eq, insert_insert_eq.
    - unfold with_status. cbn [assignments_collection].
      by apply list_lookup_insert_eq.
    - by rewrite lookup_insert_ne.
    - intros j a' Hj. unfold with_status. cbn [assignments_collection].
      rewrite list_lookup_insert_ne by lia. by apply Hfirst. }
  split; [|split].
  - unfold accept_assignment_endpoint, mbind, App_bind.
    rewrite (current_active_user_resolved clock token d s H), Hd.
    cbv beta iota.
    by rewrite (set_status_stored (mkAssignmentUpdate id "accepted")
                  d s o i a).
  - unfold reject_assignment_endpoint, mbind, App_bind.
    rewrite Hc. apply Hupd.
  - unfold accept_assignment_endpoint, mbind, App_bind.
    rewrite Hc. apply Hupd.
Qed.

End routes.

(** ** The further properties on the example store *)

Lemma raising_call_writes_nothing_witness :
  (register_user (L := ref_libs) "salt3" (oid_of_nat 3)
     (mkUserCreate "bob" "hunter2") example_db).2 = example_db
  ∧ (update_assignment_status (mkAssignmentUpdate "nonsense" "accepted")
       alice_doc example_db).2 = example_db.
Proof.
  split.
  - apply (proj1 (raising_call_writes_nothing (L := ref_libs) "salt3"
                    (oid_of_nat 3) (mkUserCreate "bob" "hunter2") 0
                    (mkAssignmentCreate "" "" "") (mkAssignmentUpdate "" "")
                    alice_doc example_db) username_taken);
      reflexivity.
  - apply (proj2 (proj2 (proj2
             (raising_call_writes_nothing (L := ref_libs) "salt3"
                (oid_of_nat 3) (mkUserCreate "bob" "hunter2") 0
                (mkAssignmentCreate "" "" "")
                (mkAssignmentUpdate "nonsense" "accepted")
                alice_doc example_db)))
             (HTTPError (mkHTTPException HTTP_400_BAD_REQUEST
                           "Invalid assignment ID." [])));
      reflexivity.
Defined.

Lemma zero_lifetime_means_default_witness :
  decode_access_token (L := ref_libs) 1000
    (create_access_token (L := ref_libs) 1000 {[ "sub" := VStr "bob" ]}
       (Some 0%Z))
  = Ok (Some (<["exp" := VInt (1000 + 60 * 15)]> {[ "sub" := VStr "bob" ]})).
Proof.
  apply (proj2 (proj2 (zero_lifetime_means_default (L := ref_libs) 1000
                         "bob")) ref_jwt_contract).
  reflexivity.
Defined.

Lemma decode_access_token_outcomes_witness :
  decode_access_token (L := ref_libs) 200 forged_token = Ok None
  ∧ decode_access_token (L := ref_libs) 200 (valid_token "bob")
    = Ok (Some (<["exp" := VInt 5000]> {[ "sub" := VStr "bob" ]})).
Proof.
  split.
  - apply (proj1 (proj2 (decode_access_token_outcomes (L := ref_libs) 200
                           forged_token))).
    exists InvalidSignatureError. split; reflexivity.
  - apply (proj1 (decode_access_token_outcomes (L := ref_libs) 200
                    (valid_token "bob"))).
    reflexivity.
Defined.

Lemma get_current_user_by_subject_witness :
  get_current_user (L := ref_libs) 200 (valid_token "bob") example_db
  = (Ok bob_doc, example_db)
  ∧ get_current_user (L := ref_libs) 200 (valid_token "carol") example_db
    = (Raise (HTTPError credentials_exception), example_db).
Proof.
  split.
  - apply (proj1 (get_current_user_by_subject (L := ref_libs) 200
                    (valid_token "bob")
                    (claims_of "bob") "bob" example_db ltac:(vm_compute; reflexivity) ltac:(vm_compute; reflexivity) ltac:(vm_compute; reflexivity)));
      [by_computation | by_computation | reflexivity].
  - apply (proj2 (get_current_user_by_subject (L := ref_libs) 200
                    (valid_token "carol")
                    (claims_of "carol") "carol" example_db ltac:(vm_compute; reflexivity) ltac:(vm_compute; reflexivity) ltac:(vm_compute; reflexivity))).
    by_computation.
Defined.

Lemma get_current_user_without_subject_witness :
  get_current_user (L := anon_libs) 200 "empty" example_db
  = (Raise (HTTPError credentials_exception), example_db)
  ∧ get_current_user (L := anon_libs) 200 "anonymous" example_db
    = (Raise (HTTPError credentials_exception), example_db).
Proof.
  split.
  - apply (proj1 (get_current_user_without_subject (L := anon_libs) 200
                    "empty" no_claims example_db ltac:(vm_compute; reflexivity) ltac:(vm_compute; reflexivity))).
    reflexivity.
  - apply (proj2 (get_current_user_without_subject (L := anon_libs) 200
                    "anonymous" anonymous_claims example_db
                    ltac:(vm_compute; reflexivity) ltac:(vm_compute; reflexivity))); reflexivity.
Defined.

Lemma login_unknown_username_witness :
  login_user (L := ref_libs) 1000 (mkUserCreate "carol" "hunter2") example_db
  = (Raise (HTTPError (mkHTTPException HTTP_401_UNAUTHORIZED
                         "Invalid username or password"
                         [("WWW-Authenticate", "Bearer")])), example_db)
  ∧ login_admin (L := ref_libs) 1000 (mkUserCreate "carol" "hunter2")
      example_db
    = (Raise (HTTPError (mkHTTPException HTTP_401_UNAUTHORIZED
                           "Invalid username or password"
                           [("WWW-Authenticate", "Bearer")])), example_db).
Proof.
  apply (login_unknown_username (L := ref_libs) 1000
           (mkUserCreate "carol" "hunter2") example_db).
  by_computation.
Defined.

Lemma login_user_serves_admins_witness :
  login_user (L := ref_libs) 1000 (mkUserCreate "alice" "wonderland")
    example_db
  = login_admin (L := ref_libs) 1000 (mkUserCreate "alice" "wonderland")
      example_db.
Proof.
  apply (login_user_serves_admins (L := ref_libs) 1000
           (mkUserCreate "alice" "wonderland") example_db alice_doc);
    [by_computation | by_computation | reflexivity | reflexivity].
Defined.


Lemma register_twice_witness :
  register_admin (L := ref_libs) "salt5" (oid_of_nat 5)
    (mkUserCreate "carol" "other")
    (register_user (L := ref_libs) "salt3" (oid_of_nat 3)
       (mkUserCreate "carol" "hunter2") example_db).2
  = (Raise username_taken,
     (register_user (L := ref_libs) "salt3" (oid_of_nat 3)
        (mkUserCreate "carol" "hunter2") example_db).2).
Proof.
  apply (register_twice (L := ref_libs) "salt3" "salt5" (oid_of_nat 3)
           (oid_of_nat 5) (mkUserCreate "carol" "hunter2")
           (mkUserCreate "carol" "other") example_db
           ltac:(by_computation) ltac:(vm_compute; reflexivity)).
Defined.


Lemma set_status_bad_or_unknown_id_witness :
  update_assignment_status (mkAssignmentUpdate "nonsense" "accepted")
    alice_doc example_db
  = (Raise (HTTPError (mkHTTPException HTTP_400_BAD_REQUEST
                         "Invalid assignment ID." [])), example_db)
  ∧ update_assignment_status
      (mkAssignmentUpdate "00000000000000000000000z" "accepted")
      alice_doc example_db
    = (Raise (HTTPError (mkHTTPException HTTP_400_BAD_REQUEST
                           "Invalid assignment ID." [])), example_db)
  ∧ update_assignment_status
      (mkAssignmentUpdate "000000000000000000000099" "accepted")
      alice_doc example_db
    = (Raise (HTTPError (mkHTTPException HTTP_404_NOT_FOUND
                           "Assignment not found." [])), example_db).
Proof.
  split; [|split].
  - apply (proj1 (set_status_bad_or_unknown_id
                    (mkAssignmentUpdate "nonsense" "accepted")
                    alice_doc example_db ltac:(vm_compute; reflexivity))).
    left. vm_compute. discriminate.
  - apply (proj1 (set_status_bad_or_unknown_id
                    (mkAssignmentUpdate "00000000000000000000000z"
                       "accepted")
                    alice_doc example_db ltac:(vm_compute; reflexivity))).
    right. vm_compute. reflexivity.
  - apply (proj2 (set_status_bad_or_unknown_id
                    (mkAssignmentUpdate "000000000000000000000099"
                       "accepted")
                    alice_doc example_db ltac:(vm_compute; reflexivity))
             (oid_of_nat 99)); [reflexivity | by_computation].
Defined.

Lemma set_status_last_writer_wins_witness :
  update_assignment_status
    (mkAssignmentUpdate "000000000000000000000010" "rejected") dave_doc
    (update_assignment_status
       (mkAssignmentUpdate "000000000000000000000010" "accepted")
       alice_doc example_db).2
  = update_assignment_status
      (mkAssignmentUpdate "000000000000000000000010" "rejected") dave_doc
      example_db.
Proof.
  apply (set_status_last_writer_wins "000000000000000000000010"
           "accepted" "rejected" alice_doc dave_doc example_db
           (oid_of_nat 10) 0%nat (task_doc 10 "rejected"));
    [reflexivity | reflexivity | reflexivity | reflexivity | reflexivity |].
  intros j d' Hj. lia.
Defined.

Lemma upload_then_listed_witness :
  (∃ listed,
     (get_assignments_for_admin (L := ref_libs) alice_doc None
        (upload_assignment 2000 (oid_of_nat 11)
           (mkAssignmentCreate "bob-1" "essay" "alice") bob_doc
           example_db).2).1
     = Ok (mkAssignmentListResponse listed) ∧ length listed = 2%nat)
  ∧ (get_assignments_for_admin (L := ref_libs) alice_doc None
       (upload_assignment 2000 (oid_of_nat 500)
          (mkAssignmentCreate "bob-1" "essay" "alice") bob_doc
          crowded_db).2).1
    = (get_assignments_for_admin (L := ref_libs) alice_doc None
         crowded_db).1.
Proof.
  split.
  - eexists. split.
    + apply (proj1 (upload_then_listed (L := ref_libs) 2000 (oid_of_nat 11)
                      (mkAssignmentCreate "bob-1" "essay" "alice") bob_doc
                      alice_doc (VOid (oid_of_nat 2)) (oid_of_nat 1)
                      example_db
                      ltac:(by_computation) ltac:(by_computation)
                      ltac:(vm_compute; reflexivity)
                      ltac:(vm_compute; reflexivity)
                      ltac:(vm_compute; reflexivity)
                      ltac:(vm_compute; reflexivity)
                      ltac:(vm_compute; reflexivity))).
      vm_compute. lia.
    + reflexivity.
  - apply (proj1 (proj2 (upload_then_listed (L := ref_libs) 2000
                           (oid_of_nat 500)
                           (mkAssignmentCreate "bob-1" "essay" "alice")
                           bob_doc alice_doc (VOid (oid_of_nat 2))
                           (oid_of_nat 1) crowded_db
                           ltac:(by_computation) ltac:(by_computation)
                           ltac:(vm_compute; reflexivity)
                           ltac:(vm_compute; reflexivity)
                           ltac:(vm_compute; reflexivity)
                           ltac:(vm_compute; reflexivity)
                           ltac:(vm_compute; reflexivity)))).
    vm_compute. lia.
Defined.

Lemma listing_requires_admin_witness :
  get_assignments_for_admin (L := ref_libs) bob_doc (Some "alice") example_db
  = (Raise (HTTPError (mkHTTPException HTTP_403_FORBIDDEN
                         "Not authorized to admin" [])), example_db).
Proof.
  apply (listing_requires_admin (L := ref_libs) bob_doc (VStr "user")
           (Some "alice") example_db); [reflexivity | discriminate].
Defined.

Lemma assignment_writes_keep_store_ok_witness :
  assignments_ok
    (assignments_collection
       (upload_assignment 2000 (oid_of_nat 11)
          (mkAssignmentCreate "bob-1" "essay" "alice") bob_doc
          example_db).2) = true.
Proof.
  apply (assignment_writes_keep_store_ok 2000 (oid_of_nat 11)
           (mkAssignmentCreate "bob-1" "essay" "alice")
           (mkAssignmentUpdate "000000000000000000000010" "accepted")
           bob_doc example_db ltac:(vm_compute; reflexivity)).
Defined.

Lemma register_keeps_store_ok_witness :
  unique_usernames
    (users_collection
       (register_user (L := ref_libs) "salt3" (oid_of_nat 3)
          (mkUserCreate "carol" "hunter2") example_db).2)
  ∧ users_ok
      (users_collection
         (register_user (L := ref_libs) "salt3" (oid_of_nat 3)
            (mkUserCreate "carol" "hunter2") example_db).2) = true.
Proof.
  apply (register_keeps_store_ok (L := ref_libs) "salt3" (oid_of_nat 3)
           (mkUserCreate "carol" "hunter2") example_db
           ltac:(by_computation) ltac:(vm_compute; reflexivity)
           ltac:(by_computation)).
Defined.

Lemma routes_refuse_invalid_token_witness :
  accept_assignment_endpoint (L := ref_libs) 200 expired_token
    "000000000000000000000010" example_db
  = (Raise (HTTPError credentials_exception), example_db).
Proof.
  apply (routes_refuse_invalid_token (L := ref_libs) 200 expired_token
           ExpiredSignatureError 2000 (oid_of_nat 11)
           (mkAssignmentCreate "bob-1" "essay" "alice") None
           "000000000000000000000010" example_db
           ltac:(vm_compute; reflexivity) ltac:(vm_compute; reflexivity)).
Defined.

Lemma routes_refuse_inactive_witness :
  upload_assignment_endpoint (L := ref_libs) 200 (valid_token "bob") 2000
    (oid_of_nat 11) (mkAssignmentCreate "bob-1" "essay" "alice") dormant_db
  = (Raise (HTTPError (mkHTTPException HTTP_400_BAD_REQUEST
                         "Inactive user" [])), dormant_db).
Proof.
  apply (routes_refuse_inactive (L := ref_libs) 200 (valid_token "bob")
           dormant_bob 2000 (oid_of_nat 11)
           (mkAssignmentCreate "bob-1" "essay" "alice") None
           "000000000000000000000010" dormant_db
           ltac:(vm_compute; reflexivity) ltac:(vm_compute; reflexivity)).
Defined.

Lemma routes_check_role_witness :
  accept_assignment_endpoint (L := ref_libs) 200 (valid_token "bob")
    "000000000000000000000010" example_db
  = (Raise (not_admin "Not authorized to accept assignments."), example_db).
Proof.
  apply (proj2 (routes_check_role (L := ref_libs) 200 (valid_token "bob")
                  bob_doc 2000 (oid_of_nat 11)
                  (mkAssignmentCreate "bob-1" "essay" "alice") None
                  "000000000000000000000010" example_db
                  ltac:(vm_compute; reflexivity)
                  ltac:(left; vm_compute; reflexivity))
           (VStr "user")); [reflexivity | discriminate].
Defined.

Lemma accept_then_reject_witness :
  accept_assignment_endpoint (L := ref_libs) 200 (valid_token "alice")
    "000000000000000000000010" example_db
  = (Ok {[ "message" := VStr "Assignment status updated successfully" ]},
     mkDb (users_collection example_db)
          (<[0%nat := <["status" := VStr "accepted"]>
                        (task_doc 10 "rejected")]>
             (assignments_collection example_db))).
Proof.
  apply (accept_then_reject (L := ref_libs) 200 (valid_token "alice")
           alice_doc "000000000000000000000010" (oid_of_nat 10) 0%nat
           (task_doc 10 "rejected") example_db
           ltac:(vm_compute; reflexivity)
           ltac:(left; vm_compute; reflexivity)
           ltac:(vm_compute; reflexivity) ltac:(vm_compute; reflexivity)
           ltac:(vm_compute; reflexivity) ltac:(vm_compute; reflexivity)
           ltac:(intros j a' Hj; lia)).
Defined.
